(** * Authentication core of Sistema Move Marias

    A shallow embedding of [backend/app/models/usuario.py],
    [backend/app/routes/auth.py], the JWT settings of
    [backend/app/config.py] and the JWT callbacks of
    [backend/app/extensions.py], with the properties of the login,
    lockout, token and revocation logic stated over it.

    Conventions.
    - A [datetime] is a number of seconds ([Z]); a [timedelta] is a
      number of seconds as well.  [datetime.utcnow()] is the argument
      [now] of every operation that reads the clock.
    - A Python exception is the [Raise] case of [result].
    - A method of [Usuario] is a computation of [M Usuario]: it reads and
      writes the fields of [self] and returns a value or raises.
    - A route handler is a computation of [M AppState]. *)

From stdpp Require Import base gmap sets list strings.
From Stdlib Require Import ZArith Lia Ascii String.

Local Open Scope string_scope.
Local Open Scope Z_scope.

(** ** Exceptions and the state-and-exception monad *)

Inductive exn : Type :=
| TypeError
| ValueError
| RuntimeError
| AttributeError.

Inductive result (A : Type) : Type :=
| Ok (a : A)
| Raise (e : exn).

Arguments Ok {A} a.
Arguments Raise {A} e.

Definition M (S A : Type) : Type := S -> result A * S.

Definition ret {S A : Type} (a : A) : M S A := fun s => (Ok a, s).

Definition raise {S A : Type} (e : exn) : M S A := fun s => (Raise e, s).

Definition bind {S A B : Type} (m : M S A) (k : A -> M S B) : M S B :=
  fun s =>
    match m s with
    | (Ok a, s') => k a s'
    | (Raise e, s') => (Raise e, s')
    end.

Definition gets {S A : Type} (f : S -> A) : M S A := fun s => (Ok (f s), s).

Definition modify {S : Type} (f : S -> S) : M S unit := fun s => (Ok tt, f s).

Definition lift {S A : Type} (r : result A) : M S A := fun s => (r, s).

Notation "x <- m ;; k" := (bind m (fun x => k))
  (at level 62, m at next level, right associativity).
Notation "m ;;; k" := (bind m (fun _ => k))
  (at level 62, right associativity).

(** ** Time *)

Definition datetime : Type := Z.
Definition timedelta : Type := Z.

Definition minutes (n : Z) : timedelta := n * 60.
Definition hours (n : Z) : timedelta := n * 3600.
Definition days (n : Z) : timedelta := n * 86400.

(** ** Configuration ([app/config.py])

    A setting is absent ([None]: the [get]/[getattr] fallback applies), an
    integer, or a [timedelta] object. *)

Inductive setting : Type :=
| SInt (n : Z)
| STimedelta (d : timedelta).

Record Config : Type := mkConfig {
  JWT_ACCESS_TOKEN_EXPIRES : option setting;
  JWT_REFRESH_TOKEN_EXPIRES : option setting;
  MAX_LOGIN_ATTEMPTS : option Z;
  LOGIN_ATTEMPT_TIMEOUT : option Z
}.

(** [class Config] of config.py, lines 33-40: the two expiry settings are
    [timedelta(hours=24)] and [timedelta(days=30)]; that class has no
    lockout settings. *)
Definition Config_base : Config :=
  {| JWT_ACCESS_TOKEN_EXPIRES := Some (STimedelta (hours 24));
     JWT_REFRESH_TOKEN_EXPIRES := Some (STimedelta (days 30));
     MAX_LOGIN_ATTEMPTS := None;
     LOGIN_ATTEMPT_TIMEOUT := None |}.

(** [config.get(key, default)] with an integer default. *)
Definition config_get (v : option setting) (default : Z) : setting :=
  match v with
  | Some s => s
  | None => SInt default
  end.

(** [getattr(Config, name, default)]. *)
Definition getattr (v : option Z) (default : Z) : Z :=
  match v with
  | Some n => n
  | None => default
  end.

(** [timedelta(hours=x)] and [timedelta(days=x)]: the constructor takes a
    number; any other argument, a [timedelta] included, is a [TypeError]. *)
Definition timedelta_hours (x : setting) : result timedelta :=
  match x with
  | SInt n => Ok (hours n)
  | STimedelta _ => Raise TypeError
  end.

Definition timedelta_days (x : setting) : result timedelta :=
  match x with
  | SInt n => Ok (days n)
  | STimedelta _ => Raise TypeError
  end.

(** ** The account model ([app/models/usuario.py]) *)

Inductive TipoUsuarioEnum : Type :=
| ADMIN
| PROFISSIONAL.

(** The columns of [usuarios] the authentication code reads or writes.
    [id] is the text of the UUID ([str(usuario.id)]). *)
Record Usuario : Type := mkUsuario {
  id : string;
  nome : string;
  email : string;
  senha_hash : string;
  tipo_usuario : TipoUsuarioEnum;
  ativo : bool;
  ultimo_login : option datetime;
  tentativas_login : Z;
  bloqueado_ate : option datetime
}.

Definition set_senha_hash (h : string) (u : Usuario) : Usuario :=
  mkUsuario (id u) (nome u) (email u) h (tipo_usuario u) (ativo u)
            (ultimo_login u) (tentativas_login u) (bloqueado_ate u).

Definition set_ultimo_login (t : option datetime) (u : Usuario) : Usuario :=
  mkUsuario (id u) (nome u) (email u) (senha_hash u) (tipo_usuario u) (ativo u)
            t (tentativas_login u) (bloqueado_ate u).

Definition set_tentativas_login (n : Z) (u : Usuario) : Usuario :=
  mkUsuario (id u) (nome u) (email u) (senha_hash u) (tipo_usuario u) (ativo u)
            (ultimo_login u) n (bloqueado_ate u).

Definition set_bloqueado_ate (t : option datetime) (u : Usuario) : Usuario :=
  mkUsuario (id u) (nome u) (email u) (senha_hash u) (tipo_usuario u) (ativo u)
            (ultimo_login u) (tentativas_login u) t.

(** [Usuario.is_blocked]. *)
Definition is_blocked (now : datetime) : M Usuario bool :=
  b <- gets bloqueado_ate ;;
  match b with
  | None => ret false
  | Some t => ret (now <? t)
  end.

(** [Usuario.increment_login_attempts]. *)
Definition increment_login_attempts (cfg : Config) (now : datetime) : M Usuario unit :=
  modify (fun self => set_tentativas_login (tentativas_login self + 1) self) ;;;
  let max_attempts := getattr (MAX_LOGIN_ATTEMPTS cfg) 5 in
  let timeout_minutes := getattr (LOGIN_ATTEMPT_TIMEOUT cfg) 15 in
  n <- gets tentativas_login ;;
  if max_attempts <=? n
  then modify (set_bloqueado_ate (Some (now + minutes timeout_minutes)))
  else ret tt.

(** [Usuario.reset_login_attempts]. *)
Definition reset_login_attempts (now : datetime) : M Usuario unit :=
  modify (set_tentativas_login 0) ;;;
  modify (set_bloqueado_ate None) ;;;
  modify (set_ultimo_login (Some now)).

(** ** External functions

    [flask_bcrypt] and [str.lower().strip()] are library code.
    [generate_password_hash] draws a random salt, passed here as its first
    argument, and raises on a password it does not accept;
    [check_password_hash] takes the stored hash and the presented
    password. *)
Class Externals : Type := {
  generate_password_hash : string -> string -> result string;
  check_password_hash : string -> string -> bool;
  lower_strip : string -> string
}.

(** [login] calls [usuario.update_last_login()] and [change_password] calls
    [usuario.save()]; class [Usuario] defines neither method.  Their effect
    on the object is a parameter of the model. *)
Class UndefinedMethods : Type := {
  update_last_login : datetime -> M Usuario unit;
  save : M Usuario unit
}.

(** [Usuario.set_password]. *)
Definition set_password {E : Externals} (salt senha : string) : M Usuario unit :=
  h <- lift (generate_password_hash salt senha) ;;
  modify (set_senha_hash h).

(** [Usuario.check_password]. *)
Definition check_password {E : Externals} (senha : string) : M Usuario bool :=
  h <- gets senha_hash ;;
  ret (check_password_hash h senha).

(** [Usuario.find_by_email]: the first row whose email is the normalised
    argument. *)
Definition find_by_email {E : Externals} (email_ : string) (rows : list Usuario)
  : option Usuario :=
  List.find (fun u => String.eqb (email u) (lower_strip email_)) rows.

(** [Usuario.find_by_id]: identities are UUID texts as [str] prints them,
    so that parsing the text and comparing UUIDs is comparing the texts. *)
Definition find_by_id (user_id : string) (rows : list Usuario) : option Usuario :=
  List.find (fun u => String.eqb (id u) user_id) rows.

(** Writing a session object back to its row (the commit of the unit of
    work): the row with the object's primary key is replaced. *)
Definition commit (u : Usuario) (rows : list Usuario) : list Usuario :=
  List.map (fun v => if String.eqb (id v) (id u) then u else v) rows.

(** ** Tokens ([flask_jwt_extended]) *)

Inductive TokenType : Type :=
| Access
| Refresh.

(** The claims of a signed token.  The signature is not modelled: a
    presented credential either decodes to claims the server signed
    ([Bearer]) or does not ([BadToken]). *)
Record Jwt : Type := mkJwt {
  jti : string;
  typ : TokenType;
  sub : string;
  iat : datetime;
  exp : datetime
}.

Inductive Authorization : Type :=
| NoHeader
| BadToken
| Bearer (t : Jwt).

(** [create_access_token(identity, expires_delta)] and
    [create_refresh_token(identity, expires_delta)]; the fresh [uuid4]
    drawn for the [jti] is the argument [new_jti]. *)
Definition create_access_token (now : datetime) (new_jti identity : string)
    (expires_delta : timedelta) : Jwt :=
  mkJwt new_jti Access identity now (now + expires_delta).

Definition create_refresh_token (now : datetime) (new_jti identity : string)
    (expires_delta : timedelta) : Jwt :=
  mkJwt new_jti Refresh identity now (now + expires_delta).

(** ** Responses *)

(** What [usuario_schema.dump] shows of an account. *)
Record UsuarioDump : Type := mkDump {
  dump_id : string;
  dump_nome : string;
  dump_email : string;
  dump_tipo_usuario : TipoUsuarioEnum;
  dump_ativo : bool;
  dump_ultimo_login : option datetime
}.

Definition usuario_schema_dump (u : Usuario) : UsuarioDump :=
  mkDump (id u) (nome u) (email u) (tipo_usuario u) (ativo u) (ultimo_login u).

Inductive Data : Type :=
| LoginData (access_token refresh_token : Jwt) (user : UsuarioDump)
| RefreshData (access_token : Jwt)
| UserData (user : UsuarioDump)
| VerifyData (user_id : string) (valid : bool).

(** A JSON body: [{'success', 'message'}], the same with ['data'], or
    [{'error', 'message'}]. *)
Inductive Body : Type :=
| Message (success : bool) (message : string)
| WithData (success : bool) (message : string) (data : Data)
| Error (error message : string).

Record Response : Type := mkResponse {
  body : Body;
  status : Z
}.

(** ** Application state

    The rows of [usuarios], the module-level set [revoked_tokens] of
    auth.py, and the records written by [log_security_event]. *)
Record SecurityEvent : Type := mkEvent {
  timestamp : datetime;
  event_type : string;
  details : list (string * string)
}.

Record AppState : Type := mkState {
  usuarios : list Usuario;
  revoked_tokens : gset string;
  security_log : list SecurityEvent
}.

Definition set_usuarios (rows : list Usuario) (s : AppState) : AppState :=
  mkState rows (revoked_tokens s) (security_log s).

Definition set_revoked_tokens (r : gset string) (s : AppState) : AppState :=
  mkState (usuarios s) r (security_log s).

(** [log_security_event(event_type, details)]. *)
Definition log_security_event (now : datetime) (event_type_ : string)
    (details_ : list (string * string)) : M AppState unit :=
  modify (fun s => mkState (usuarios s) (revoked_tokens s)
                     (security_log s ++ [mkEvent now event_type_ details_])).

(** Calling a method on an object held by a handler: the handler goes on
    with the object as the method left it. *)
Definition call {A : Type} (self : Usuario) (m : M Usuario A)
  : M AppState (A * Usuario) :=
  fun s =>
    match m self with
    | (Ok a, self') => (Ok (a, self'), s)
    | (Raise e, _) => (Raise e, s)
    end.

(** ** JWT verification ([@jwt_required], extensions.py)

    [verify_jwt_in_request] rejects a request without a bearer token, a
    token that does not decode, one not yet valid or expired ([exp <= now]),
    one of the wrong type, and, a [user_lookup_loader] being registered, one
    whose subject has no row.  extensions.py registers no
    [token_in_blocklist_loader], so the library itself consults no
    blocklist. *)
Inductive JwtError : Type :=
| token_missing
| token_invalid
| token_expired
| user_lookup_error.

Definition user_lookup_callback (rows : list Usuario) (jwt_data : Jwt)
  : option Usuario :=
  find_by_id (sub jwt_data) rows.

Definition is_refresh (t : TokenType) : bool :=
  match t with
  | Refresh => true
  | Access => false
  end.

Definition verify_jwt_in_request (refresh_ : bool) (now : datetime)
    (rows : list Usuario) (a : Authorization) : JwtError + Jwt :=
  match a with
  | NoHeader => inl token_missing
  | BadToken => inl token_invalid
  | Bearer t =>
      if now <? iat t then inl token_invalid
      else if exp t <=? now then inl token_expired
      else if negb (Bool.eqb (is_refresh (typ t)) refresh_) then inl token_invalid
      else match user_lookup_callback rows t with
           | None => inl user_lookup_error
           | Some _ => inr t
           end
  end.

(** The callbacks of [setup_jwt_handlers]. *)
Definition jwt_error_response (e : JwtError) : Response :=
  match e with
  | token_missing =>
      mkResponse (Error "token_missing"
        "Token de acesso é necessário para acessar este recurso.") 401
  | token_invalid =>
      mkResponse (Error "token_invalid" "Token de acesso inválido.") 401
  | token_expired =>
      mkResponse (Error "token_expired"
        "O token de acesso expirou. Por favor, faça login novamente.") 401
  | user_lookup_error =>
      mkResponse (Error "user_lookup_error" "Error loading the user") 401
  end.

(** The decorator: the view runs on the decoded claims ([get_jwt()]) of a
    token that passed, and the error response is returned otherwise. *)
Definition jwt_required (refresh_ : bool) (now : datetime) (a : Authorization)
    (view : Jwt -> M AppState Response) : M AppState Response :=
  rows <- gets usuarios ;;
  match verify_jwt_in_request refresh_ now rows a with
  | inl e => ret (jwt_error_response e)
  | inr t => view t
  end.

(** ** The routes ([app/routes/auth.py]) *)

(** Python's [needle in haystack] on strings. *)
Fixpoint str_in (needle haystack : string) : bool :=
  String.prefix needle haystack ||
  match haystack with
  | EmptyString => false
  | String _ rest => str_in needle rest
  end.

(** Python's [len] of a [str]: the number of characters.  A string is held
    here as the bytes of its UTF-8 text, in which every character is one
    byte that is not a continuation byte ([10xxxxxx]), followed by its
    continuation bytes. *)
Definition is_continuation_byte (c : ascii) : bool :=
  match c with
  | Ascii _ _ _ _ _ _ b6 b7 => b7 && negb b6
  end.

Fixpoint py_len (s : string) : nat :=
  match s with
  | EmptyString => 0
  | String c rest =>
      if is_continuation_byte c then py_len rest else Datatypes.S (py_len rest)
  end.

(** A JSON object with string values, and [dict.get]. *)
Definition dict : Type := list (string * string).

Fixpoint dict_get (key : string) (d : dict) : option string :=
  match d with
  | [] => None
  | (k, v) :: rest => if String.eqb k key then Some v else dict_get key rest
  end.

(** Truth value of [d.get(key)]: present and not the empty string. *)
Definition truthy (o : option string) : bool :=
  match o with
  | Some v => negb (String.eqb v "")
  | None => false
  end.

Definition from_option_str (o : option string) : string :=
  match o with
  | Some v => v
  | None => ""
  end.

(** [try: ... except Exception as e: ... return ..., 500]. *)
Definition try_except {S A : Type} (m : M S A) (handler : A) : M S A :=
  fun s =>
    match m s with
    | (Ok a, s') => (Ok a, s')
    | (Raise _, s') => (Ok handler, s')
    end.

Definition tipo_usuario_value (t : TipoUsuarioEnum) : string :=
  match t with
  | ADMIN => "admin"
  | PROFISSIONAL => "profissional"
  end.

(** The error handlers of error_handlers.py the routes name. *)
Definition handle_validation_error : Response :=
  mkResponse (Error "Dados inválidos"
    "Os dados enviados contêm erros de validação") 400.

Definition handle_not_found : Response :=
  mkResponse (Error "Não encontrado"
    "O recurso solicitado não foi encontrado") 404.

Module auth.

(** [login].  [request_json] is the outcome of [login_schema.load]:
    [None] when it raised, the pair of [email] and [senha] otherwise. *)
Definition login {E : Externals} {U : UndefinedMethods} (cfg : Config) (now : datetime)
    (jti_access jti_refresh : string) (request_json : option (string * string))
  : M AppState Response :=
  match request_json with
  | None => ret handle_validation_error
  | Some (email_, senha) =>
      found <- gets (fun s => find_by_email email_ (usuarios s)) ;;
      match found with
      | None =>
          log_security_event now "login_failed"
            [("email", email_); ("reason", "user_not_found")] ;;;
          ret (mkResponse (Message false "Email ou senha inválidos") 401)
      | Some usuario =>
          if negb (ativo usuario) then
            log_security_event now "login_failed"
              [("email", email_); ("reason", "user_inactive")] ;;;
            ret (mkResponse (Message false
              "Usuário inativo. Entre em contato com o administrador.") 401)
          else
            r <- call usuario (check_password senha) ;;
            let '(ok, usuario) := r in
            if negb ok then
              log_security_event now "login_failed"
                [("email", email_); ("reason", "wrong_password")] ;;;
              ret (mkResponse (Message false "Email ou senha inválidos") 401)
            else
              d_access <- lift (timedelta_hours
                           (config_get (JWT_ACCESS_TOKEN_EXPIRES cfg) 24)) ;;
              let access_token :=
                create_access_token now jti_access (id usuario) d_access in
              d_refresh <- lift (timedelta_days
                            (config_get (JWT_REFRESH_TOKEN_EXPIRES cfg) 30)) ;;
              let refresh_token :=
                create_refresh_token now jti_refresh (id usuario) d_refresh in
              r <- call usuario (update_last_login now) ;;
              let '(_, usuario) := r in
              modify (fun s => set_usuarios (commit usuario (usuarios s)) s) ;;;
              log_security_event now "login_success"
                [("user_id", id usuario); ("email", email_);
                 ("tipo_usuario", tipo_usuario_value (tipo_usuario usuario))] ;;;
              ret (mkResponse (WithData true "Login realizado com sucesso"
                     (LoginData access_token refresh_token
                        (usuario_schema_dump usuario))) 200)
      end
  end.

(** [refresh], under [@jwt_required(refresh=True)]. *)
Definition refresh (cfg : Config) (now : datetime) (new_jti : string)
    (a : Authorization) : M AppState Response :=
  jwt_required true now a (fun jwt =>
    let jti_ := jti jwt in
    revoked <- gets revoked_tokens ;;
    if bool_decide (jti_ ∈ revoked) then
      ret (mkResponse (Message false "Token inválido") 401)
    else
      let current_user_id := sub jwt in
      found <- gets (fun s => find_by_id current_user_id (usuarios s)) ;;
      match found with
      | None =>
          ret (mkResponse (Message false "Usuário não encontrado ou inativo") 401)
      | Some usuario =>
          if negb (ativo usuario) then
            ret (mkResponse (Message false "Usuário não encontrado ou inativo") 401)
          else
            d_access <- lift (timedelta_hours
                         (config_get (JWT_ACCESS_TOKEN_EXPIRES cfg) 24)) ;;
            let new_access_token :=
              create_access_token now new_jti current_user_id d_access in
            ret (mkResponse (WithData true "Token renovado com sucesso"
                   (RefreshData new_access_token)) 200)
      end).

(** [logout], under [@jwt_required()]. *)
Definition logout (now : datetime) (a : Authorization) : M AppState Response :=
  jwt_required false now a (fun jwt =>
    let jti_ := jti jwt in
    modify (fun s => set_revoked_tokens ({[jti_]} ∪ revoked_tokens s) s) ;;;
    let current_user_id := sub jwt in
    log_security_event now "logout" [("user_id", current_user_id)] ;;;
    ret (mkResponse (Message true "Logout realizado com sucesso") 200)).

(** [get_current_user], under [@jwt_required()]. *)
Definition get_current_user (now : datetime) (a : Authorization)
  : M AppState Response :=
  jwt_required false now a (fun jwt =>
    let current_user_id := sub jwt in
    found <- gets (fun s => find_by_id current_user_id (usuarios s)) ;;
    match found with
    | None => ret handle_not_found
    | Some usuario =>
        ret (mkResponse (WithData true "Dados do usuário obtidos com sucesso"
               (UserData (usuario_schema_dump usuario))) 200)
    end).

(** [change_password], under [@jwt_required()].  [data] is
    [request.get_json()]; [salt] is the salt bcrypt draws. *)
Definition change_password {E : Externals} {U : UndefinedMethods} (now : datetime)
    (salt : string) (data : option dict) (a : Authorization)
  : M AppState Response :=
  jwt_required false now a (fun jwt =>
    try_except
      (match data with
       | None | Some [] =>
           ret (mkResponse (Message false "Dados não fornecidos") 400)
       | Some data =>
           let senha_atual := dict_get "senha_atual" data in
           let nova_senha := dict_get "nova_senha" data in
           let confirmar_senha := dict_get "confirmar_senha" data in
           if negb (truthy senha_atual && truthy nova_senha
                    && truthy confirmar_senha) then
             ret (mkResponse (Message false "Todos os campos são obrigatórios") 400)
           else if negb (String.eqb (from_option_str nova_senha)
                           (from_option_str confirmar_senha)) then
             ret (mkResponse
                    (Message false "Nova senha e confirmação não coincidem") 400)
           else if (py_len (from_option_str nova_senha) <? 6)%nat then
             ret (mkResponse
                    (Message false "Nova senha deve ter pelo menos 6 caracteres") 400)
           else
             let current_user_id := sub jwt in
             found <- gets (fun s => find_by_id current_user_id (usuarios s)) ;;
             match found with
             | None => ret handle_not_found
             | Some usuario =>
                 r <- call usuario (check_password (from_option_str senha_atual)) ;;
                 let '(ok, usuario) := r in
                 if negb ok then
                   ret (mkResponse (Message false "Senha atual incorreta") 400)
                 else
                   r <- call usuario
                          (set_password salt (from_option_str nova_senha)) ;;
                   let '(_, usuario) := r in
                   r <- call usuario save ;;
                   let '(_, usuario) := r in
                   modify (fun s => set_usuarios (commit usuario (usuarios s)) s) ;;;
                   log_security_event now "password_changed"
                     [("user_id", current_user_id)] ;;;
                   ret (mkResponse (Message true "Senha alterada com sucesso") 200)
             end
       end)
      (mkResponse (Message false "Erro interno do servidor") 500)).

(** [verify_token], under [@jwt_required()]. *)
Definition verify_token (now : datetime) (a : Authorization)
  : M AppState Response :=
  jwt_required false now a (fun jwt =>
    ret (mkResponse (WithData true "Token válido"
           (VerifyData (sub jwt) true)) 200)).

(** [check_if_token_revoked], the [before_app_request] hook.  [endpoint] is
    [request.endpoint]; [jwt_in_context] is what [get_jwt()] finds in the
    request context when the hook runs ([None]: it raises and the bare
    [except] passes).  The result is [None] when the hook returns nothing
    and the request goes on to its view. *)
Definition check_if_token_revoked (endpoint : option string)
    (jwt_in_context : option Jwt) : M AppState (option Response) :=
  if match endpoint with
     | Some e => negb (String.eqb e "") && str_in "auth" e
     | None => false
     end
  then ret None
  else
    match jwt_in_context with
    | None => ret None
    | Some jwt =>
        let jti_ := jti jwt in
        revoked <- gets revoked_tokens ;;
        if bool_decide (jti_ ∈ revoked) then
          ret (Some (mkResponse (Message false "Token foi revogado") 401))
        else ret None
    end.

End auth.

(** ** Requests

    A request names the view it is routed to and carries the
    [Authorization] header.  [other_view] is a view outside the [auth]
    blueprint (the health checks, the index): it answers without touching
    the state modelled here. *)
Inductive Route : Type :=
| POST_login (request_json : option (string * string))
             (jti_access jti_refresh : string)
| POST_refresh (new_jti : string)
| POST_logout
| GET_me
| POST_change_password (salt : string) (data : option dict)
| GET_verify_token
| other_view (endpoint : option string) (response : Response).

(** [request.endpoint]: blueprint name, a dot, the view function's name. *)
Definition endpoint_of (r : Route) : option string :=
  match r with
  | POST_login _ _ _ => Some "auth.login"
  | POST_refresh _ => Some "auth.refresh"
  | POST_logout => Some "auth.logout"
  | GET_me => Some "auth.get_current_user"
  | POST_change_password _ _ => Some "auth.change_password"
  | GET_verify_token => Some "auth.verify_token"
  | other_view e _ => e
  end.

Record Request : Type := mkRequest {
  route : Route;
  authorization : Authorization
}.

(** One request: the hook first, the view if the hook returned nothing.  A
    [Raise] is an exception that left the view.  The hook is a
    [before_app_request] function: it runs before the view and its
    [@jwt_required] decorator, the only code that decodes a token and puts
    its claims in the request context, so [get_jwt()] finds no claims when
    the hook runs. *)
Definition full_dispatch_request {E : Externals} {U : UndefinedMethods}
    (cfg : Config) (now : datetime) (req : Request) : M AppState Response :=
  hook <- auth.check_if_token_revoked (endpoint_of (route req)) None ;;
  match hook with
  | Some response => ret response
  | None =>
      match route req with
      | POST_login request_json jti_access jti_refresh =>
          auth.login cfg now jti_access jti_refresh request_json
      | POST_refresh new_jti => auth.refresh cfg now new_jti (authorization req)
      | POST_logout => auth.logout now (authorization req)
      | GET_me => auth.get_current_user now (authorization req)
      | POST_change_password salt data =>
          auth.change_password now salt data (authorization req)
      | GET_verify_token => auth.verify_token now (authorization req)
      | other_view _ response => ret response
      end
  end.

(** A history of requests, each at its time, oldest first. *)
Fixpoint serve {E : Externals} {U : UndefinedMethods} (cfg : Config)
    (history : list (datetime * Request)) (s : AppState) : AppState :=
  match history with
  | [] => s
  | (now, req) :: rest => serve cfg rest (snd (full_dispatch_request cfg now req s))
  end.

(** [n] login attempts in a row with the same credentials, at the given
    times; the responses, oldest first, and the final state. *)
Fixpoint login_attempts {E : Externals} {U : UndefinedMethods} (cfg : Config)
    (times : list datetime) (email_ senha : string) (s : AppState)
  : list (result Response) * AppState :=
  match times with
  | [] => ([], s)
  | now :: rest =>
      let '(r, s1) := auth.login cfg now "" "" (Some (email_, senha)) s in
      let '(rs, s2) := login_attempts cfg rest email_ senha s1 in
      (r :: rs, s2)
  end.

(** ** Instances used to run the model

    A stand-in for bcrypt: the "hash" is the salt, a dollar sign and the
    password; the empty password is refused as [flask_bcrypt] does.  Emails
    in the examples are already lower-case and trimmed. *)
Fixpoint drop_salt (h : string) : string :=
  match h with
  | EmptyString => EmptyString
  | String c rest => if Ascii.eqb c "$"%char then rest else drop_salt rest
  end.

Fixpoint no_dollar (salt : string) : bool :=
  match salt with
  | EmptyString => true
  | String c rest => negb (Ascii.eqb c "$"%char) && no_dollar rest
  end.

Definition example_externals : Externals :=
  {| generate_password_hash salt senha :=
       if String.eqb senha "" then Raise ValueError
       else if no_dollar salt then Ok (salt +:+ "$" +:+ senha)
       else Raise ValueError;
     check_password_hash h senha := String.eqb (drop_salt h) senha;
     lower_strip e := e |}.

(** Modelled from the spec: [update_last_login] and [save], which the
    routes call and [Usuario] does not define.  The spec's data model has
    "last_login: optional timestamp, set only on success"; [save] keeps the
    object as it is for the commit.  This is what the two calls would do if
    the methods existed; the source itself behaves as [absent_methods]
    below, and no statement about the source rests on this instance. *)
Definition stamping_methods : UndefinedMethods :=
  {| update_last_login now := modify (set_ultimo_login (Some now));
     save := ret tt |}.

(** The methods as the source has them: looking up an attribute the class
    does not define raises [AttributeError]. *)
Definition absent_methods : UndefinedMethods :=
  {| update_last_login _ := raise AttributeError;
     save := raise AttributeError |}.

(** A configuration without the JWT and lockout keys: every fallback of
    the code applies (24 hours, 30 days, 5 attempts, 15 minutes). *)
Definition Config_empty : Config := mkConfig None None None None.

Definition ana : Usuario :=
  {| id := "6f1c0a52-0f5e-4d0b-9a55-1d2f3c4b5a69";
     nome := "Ana";
     email := "ana@movemarias.dev";
     senha_hash := "salt$segredo1";
     tipo_usuario := PROFISSIONAL;
     ativo := true;
     ultimo_login := None;
     tentativas_login := 0;
     bloqueado_ate := None |}.

(** An account that failed three times and carries a lock until t = 9000. *)
Definition bia : Usuario :=
  {| id := "0b9d7c1e-3a42-4f6e-8d11-7e5a9c2b4f03";
     nome := "Bia";
     email := "bia@movemarias.dev";
     senha_hash := "salt$segredo2";
     tipo_usuario := ADMIN;
     ativo := true;
     ultimo_login := None;
     tentativas_login := 3;
     bloqueado_ate := Some 9000 |}.

(** A deactivated account. *)
Definition carla : Usuario :=
  {| id := "c3a1f2d4-5b6c-4e7f-8a90-b1c2d3e4f506";
     nome := "Carla";
     email := "carla@movemarias.dev";
     senha_hash := "salt$segredo3";
     tipo_usuario := PROFISSIONAL;
     ativo := false;
     ultimo_login := None;
     tentativas_login := 0;
     bloqueado_ate := None |}.

Definition example_state : AppState := mkState [ana; bia; carla] ∅ [].

Definition ana_access : Jwt :=
  create_access_token 1000 "jti-access-1" (id ana) (hours 24).

Definition ana_refresh : Jwt :=
  create_refresh_token 1000 "jti-refresh-1" (id ana) (days 30).

(** ** The rest of the account model ([app/models/usuario.py]) *)

(** [Usuario.is_admin], [Usuario.is_profissional], [Usuario.is_active]. *)
Definition is_admin : M Usuario bool :=
  t <- gets tipo_usuario ;;
  ret match t with
      | ADMIN => true
      | PROFISSIONAL => false
      end.

Definition is_profissional : M Usuario bool :=
  t <- gets tipo_usuario ;;
  ret match t with
      | PROFISSIONAL => true
      | ADMIN => false
      end.

Definition is_active : M Usuario bool := gets ativo.

(** [Usuario.get_active_users], [Usuario.get_admins],
    [Usuario.get_profissionais]: [filter_by(...).all()] on the rows. *)
Definition get_active_users (rows : list Usuario) : list Usuario :=
  List.filter (fun u => ativo u) rows.

Definition get_admins (rows : list Usuario) : list Usuario :=
  List.filter (fun u => match tipo_usuario u with
                        | ADMIN => true
                        | PROFISSIONAL => false
                        end) rows.

Definition get_profissionais (rows : list Usuario) : list Usuario :=
  List.filter (fun u => match tipo_usuario u with
                        | PROFISSIONAL => true
                        | ADMIN => false
                        end) rows.

(** [Usuario.__init__] and the column defaults the insert applies: the
    constructor stores the name, the normalised email, the hash of the
    password and the type; [id] is the fresh [uuid4] ([new_id]), [ativo]
    defaults to true, [tentativas_login] to 0, and the two timestamps are
    null.  A password bcrypt refuses makes the constructor raise. *)
Definition Usuario_init {E : Externals} (new_id salt nome_ email_ senha : string)
    (tipo_usuario_ : TipoUsuarioEnum) : result Usuario :=
  let self :=
    mkUsuario new_id nome_ (lower_strip email_) "" tipo_usuario_ true None 0 None in
  match set_password salt senha self with
  | (Ok _, self) => Ok self
  | (Raise e, _) => Raise e
  end.

(** Several calls of [increment_login_attempts] in a row, one at each of
    the given times. *)
Fixpoint failed_attempts (cfg : Config) (times : list datetime) : M Usuario unit :=
  match times with
  | [] => ret tt
  | now :: rest => increment_login_attempts cfg now ;;; failed_attempts cfg rest
  end.

(** ** Configuration classes and their selection ([app/config.py])

    [DevelopmentConfig] and [TestingConfig] override the expiry settings of
    [Config]; [ProductionConfig] and [StagingConfig] inherit them. *)
Definition DevelopmentConfig : Config :=
  {| JWT_ACCESS_TOKEN_EXPIRES := Some (STimedelta (hours 8));
     JWT_REFRESH_TOKEN_EXPIRES := JWT_REFRESH_TOKEN_EXPIRES Config_base;
     MAX_LOGIN_ATTEMPTS := MAX_LOGIN_ATTEMPTS Config_base;
     LOGIN_ATTEMPT_TIMEOUT := LOGIN_ATTEMPT_TIMEOUT Config_base |}.

Definition TestingConfig : Config :=
  {| JWT_ACCESS_TOKEN_EXPIRES := Some (STimedelta (minutes 15));
     JWT_REFRESH_TOKEN_EXPIRES := Some (STimedelta (hours 1));
     MAX_LOGIN_ATTEMPTS := MAX_LOGIN_ATTEMPTS Config_base;
     LOGIN_ATTEMPT_TIMEOUT := LOGIN_ATTEMPT_TIMEOUT Config_base |}.

Definition ProductionConfig : Config := Config_base.

Definition StagingConfig : Config := ProductionConfig.

Definition config_by_name : list (string * Config) :=
  [("development", DevelopmentConfig);
   ("testing", TestingConfig);
   ("staging", StagingConfig);
   ("production", ProductionConfig)].

Fixpoint config_lookup (name : string) (table : list (string * Config))
  : option Config :=
  match table with
  | [] => None
  | (k, c) :: rest => if String.eqb k name then Some c else config_lookup name rest
  end.

(** [get_config]: [FLASK_ENV] is [os.environ.get('FLASK_ENV')]; a missing or
    empty variable selects ['development'], an unknown name falls back to
    [DevelopmentConfig]. *)
Definition get_config (FLASK_ENV : option string) : Config :=
  let env := match FLASK_ENV with
             | Some v => if String.eqb v "" then "development" else v
             | None => "development"
             end in
  match config_lookup env config_by_name with
  | Some c => c
  | None => DevelopmentConfig
  end.

(** ** Seeding the default accounts ([seed_data.py]) *)

Record SeedSettings : Type := mkSeedSettings {
  DEFAULT_ADMIN_EMAIL : option string;
  DEFAULT_ADMIN_PASSWORD : option string;
  DEFAULT_PROF_EMAIL : option string;
  DEFAULT_PROF_PASSWORD : option string
}.

(** [config.get(key, default)] with a string default. *)
Definition config_get_str (v : option string) (default : string) : string :=
  match v with
  | Some s => s
  | None => default
  end.

(** [create_default_users], on the rows of [usuarios].  Each account is
    looked up by its email and created, then added at the end of the table,
    only when the lookup finds nothing; the [uuid4]s and bcrypt salts drawn
    for the new rows are arguments. *)
Definition create_default_users {E : Externals} (cfg : SeedSettings)
    (id_admin salt_admin id_prof salt_prof : string) : M (list Usuario) unit :=
  let admin_email :=
    config_get_str (DEFAULT_ADMIN_EMAIL cfg) "admin@movemarias.dev" in
  let admin_password :=
    config_get_str (DEFAULT_ADMIN_PASSWORD cfg) "admin123" in
  admin <- gets (find_by_email admin_email) ;;
  match admin with
  | None =>
      admin <- lift (Usuario_init id_admin salt_admin "Administrador do Sistema"
                       admin_email admin_password ADMIN) ;;
      modify (fun rows => (rows ++ [admin])%list)
  | Some _ => ret tt
  end ;;;
  let prof_email :=
    config_get_str (DEFAULT_PROF_EMAIL cfg) "profissional@movemarias.dev" in
  let prof_password :=
    config_get_str (DEFAULT_PROF_PASSWORD cfg) "prof123" in
  profissional <- gets (find_by_email prof_email) ;;
  match profissional with
  | None =>
      profissional <- lift (Usuario_init id_prof salt_prof "Maria Silva"
                              prof_email prof_password PROFISSIONAL) ;;
      modify (fun rows => (rows ++ [profissional])%list)
  | Some _ => ret tt
  end.

(** A seed configuration without the four keys: the defaults of
    [create_default_users] apply. *)
Definition SeedSettings_empty : SeedSettings := mkSeedSettings None None None None.

(** An account of [dora], deactivated, with tokens issued at t = 1000. *)
Definition dora : Usuario :=
  {| id := "d4e5f6a7-1b2c-4d3e-9f80-a1b2c3d4e5f6";
     nome := "Dora";
     email := "dora@movemarias.dev";
     senha_hash := "salt$segredo4";
     tipo_usuario := ADMIN;
     ativo := false;
     ultimo_login := Some 1000;
     tentativas_login := 0;
     bloqueado_ate := None |}.

Definition dora_access : Jwt :=
  create_access_token 1000 "jti-access-d" (id dora) (hours 24).

Definition dora_refresh : Jwt :=
  create_refresh_token 1000 "jti-refresh-d" (id dora) (days 30).

Definition dora_state : AppState := mkState [ana; dora] ∅ [].







(** * Properties *)

Ltac run_m :=
  repeat progress
    (unfold jwt_required, log_security_event, call, try_except,
       bind, ret, gets, modify, lift, raise in *;
     cbn [fst snd usuarios revoked_tokens security_log set_usuarios
          set_revoked_tokens] in *).

(** Case analysis on every test a handler makes. *)
Ltac crunch :=
  repeat first
    [ progress run_m
    | progress simplify_eq
    | case_match ].

(** The state after [log_security_event]. *)
Definition logged (now : datetime) (event_type_ : string)
    (details_ : list (string * string)) (s : AppState) : AppState :=
  mkState (usuarios s) (revoked_tokens s)
          (security_log s ++ [mkEvent now event_type_ details_]).

Definition invalid_credentials : Response :=
  mkResponse (Message false "Email ou senha inválidos") 401.

Definition inactive_account : Response :=
  mkResponse
    (Message false "Usuário inativo. Entre em contato com o administrador.") 401.

Section LoginCases.
Context {E : Externals} {U : UndefinedMethods}.
Variables (cfg : Config) (now : datetime) (jti_access jti_refresh : string).
Variables (email_ senha : string) (s : AppState).

Lemma login_user_not_found :
  find_by_email email_ (usuarios s) = None ->
  auth.login cfg now jti_access jti_refresh (Some (email_, senha)) s =
  (Ok invalid_credentials,
   logged now "login_failed"
     [("email", email_); ("reason", "user_not_found")] s).
Proof.
  intros Hfind. unfold auth.login. run_m. rewrite Hfind. reflexivity.
Qed.

Lemma login_user_inactive (usuario : Usuario) :
  find_by_email email_ (usuarios s) = Some usuario ->
  ativo usuario = false ->
  auth.login cfg now jti_access jti_refresh (Some (email_, senha)) s =
  (Ok inactive_account,
   logged now "login_failed"
     [("email", email_); ("reason", "user_inactive")] s).
Proof.
  intros Hfind Hativo. unfold auth.login. run_m.
  rewrite Hfind, Hativo. reflexivity.
Qed.

Lemma login_wrong_password (usuario : Usuario) :
  find_by_email email_ (usuarios s) = Some usuario ->
  ativo usuario = true ->
  check_password_hash (senha_hash usuario) senha = false ->
  auth.login cfg now jti_access jti_refresh (Some (email_, senha)) s =
  (Ok invalid_credentials,
   logged now "login_failed"
     [("email", email_); ("reason", "wrong_password")] s).
Proof.
  intros Hfind Hativo Hcheck. unfold auth.login, check_password. run_m.
  rewrite Hfind, Hativo. cbn. rewrite Hcheck. reflexivity.
Qed.

(** The successful path: both expiry settings convert, the undefined
    method returns, and the account row becomes what that method left. *)
Lemma login_success (usuario usuario' : Usuario) (d_access d_refresh : timedelta) :
  find_by_email email_ (usuarios s) = Some usuario ->
  ativo usuario = true ->
  check_password_hash (senha_hash usuario) senha = true ->
  timedelta_hours (config_get (JWT_ACCESS_TOKEN_EXPIRES cfg) 24) = Ok d_access ->
  timedelta_days (config_get (JWT_REFRESH_TOKEN_EXPIRES cfg) 30) = Ok d_refresh ->
  update_last_login now usuario = (Ok tt, usuario') ->
  auth.login cfg now jti_access jti_refresh (Some (email_, senha)) s =
  (Ok (mkResponse
         (WithData true "Login realizado com sucesso"
            (LoginData
               (create_access_token now jti_access (id usuario) d_access)
               (create_refresh_token now jti_refresh (id usuario) d_refresh)
               (usuario_schema_dump usuario'))) 200),
   logged now "login_success"
     [("user_id", id usuario'); ("email", email_);
      ("tipo_usuario", tipo_usuario_value (tipo_usuario usuario'))]
     (set_usuarios (commit usuario' (usuarios s)) s)).
Proof.
  intros Hfind Hativo Hcheck Ha Hr Hu. unfold auth.login, check_password. run_m.
  rewrite Hfind, Hativo. cbn. rewrite Hcheck. cbn.
  rewrite Ha, Hr, Hu. reflexivity.
Qed.

(** A login that answers 401 leaves every account row as it was. *)
Lemma login_401_keeps_rows (request_json : option (string * string))
    (b : Body) (s' : AppState) :
  auth.login cfg now jti_access jti_refresh request_json s
    = (Ok (mkResponse b 401), s') ->
  usuarios s' = usuarios s.
Proof.
  unfold auth.login, check_password. run_m.
  destruct request_json as [[e p]|]; [|discriminate].
  destruct (find_by_email e (usuarios s)) as [u|];
    [|intros H; inversion H; reflexivity].
  destruct (ativo u); cbn; [|intros H; inversion H; reflexivity].
  destruct (check_password_hash (senha_hash u) p); cbn;
    [|intros H; inversion H; reflexivity].
  destruct (timedelta_hours _); cbn; [|discriminate].
  destruct (timedelta_days _); cbn; [|discriminate].
  destruct (update_last_login now u) as [[[]|] u']; discriminate.
Qed.

End LoginCases.

(** ** Lockout (C1, C8) *)

Section Lockout.
Context {E : Externals} {U : UndefinedMethods}.

(** Any number of failed attempts on an active account are each answered
    with the invalid-credentials response and leave the rows untouched:
    [login] calls neither [increment_login_attempts] nor [is_blocked]. *)
Lemma login_attempts_wrong_password (cfg : Config) (email_ senha : string)
    (usuario : Usuario) (times : list datetime) (s : AppState) :
  find_by_email email_ (usuarios s) = Some usuario ->
  ativo usuario = true ->
  check_password_hash (senha_hash usuario) senha = false ->
  fst (login_attempts cfg times email_ senha s)
    = List.map (fun _ => Ok invalid_credentials) times /\
  usuarios (snd (login_attempts cfg times email_ senha s)) = usuarios s /\
  revoked_tokens (snd (login_attempts cfg times email_ senha s))
    = revoked_tokens s.
Proof.
  intros Hfind Hativo Hcheck. revert s Hfind.
  induction times as [|now rest IH]; intros s Hfind; [done|].
  cbn [login_attempts].
  rewrite (login_wrong_password cfg now "" "" email_ senha s usuario)
    by assumption.
  specialize (IH (logged now "login_failed"
                    [("email", email_); ("reason", "wrong_password")] s) Hfind).
  destruct (login_attempts cfg rest email_ senha _) as [rs s2].
  cbn in *. destruct IH as (-> & -> & ->). done.
Qed.

(** What the model class offers and [login] does not use: the fifth
    increment sets the lock 15 minutes ahead, and [is_blocked] holds
    until then. *)
Lemma increment_login_attempts_locks (now : datetime) (usuario : Usuario) :
  tentativas_login usuario = 4 ->
  snd (increment_login_attempts Config_empty now usuario)
    = set_bloqueado_ate (Some (now + minutes 15))
        (set_tentativas_login 5 usuario).
Proof.
  intros H4. unfold increment_login_attempts. run_m. cbn. rewrite H4. reflexivity.
Qed.

Lemma is_blocked_spec (now : datetime) (usuario : Usuario) :
  is_blocked now usuario =
  (Ok match bloqueado_ate usuario with
      | None => false
      | Some t => now <? t
      end, usuario).
Proof.
  unfold is_blocked. run_m. destruct (bloqueado_ate usuario); reflexivity.
Qed.

End Lockout.

(** C1, a defect of [login].  Five failed logins on the active
    account [ana], at t = 1..5, are each answered with the
    invalid-credentials response; afterwards her row is unchanged
    ([tentativas_login] is still 0 and [bloqueado_ate] still [None], not
    [now + 15 min]), [is_blocked] is false, and a sixth attempt with the
    correct secret one second later is not rejected as locked: it is
    answered 200 with a token pair when [update_last_login] stamps the
    login time, and ends in [AttributeError] with the methods as the
    source has them. *)
Theorem C1_five_failed_logins_do_not_lock :
  let run := login_attempts (E:=example_externals) (U:=stamping_methods)
               Config_empty [1; 2; 3; 4; 5] "ana@movemarias.dev" "errada"
               example_state in
  fst run = [Ok invalid_credentials; Ok invalid_credentials;
             Ok invalid_credentials; Ok invalid_credentials;
             Ok invalid_credentials] /\
  usuarios (snd run) = [ana; bia; carla] /\
  tentativas_login ana = 0 /\
  bloqueado_ate ana = None /\
  fst (is_blocked 6 ana) = Ok false /\
  fst (auth.login (E:=example_externals) (U:=stamping_methods) Config_empty 6
         "jti-access-6" "jti-refresh-6"
         (Some ("ana@movemarias.dev", "segredo1")) (snd run))
  = Ok (mkResponse
          (WithData true "Login realizado com sucesso"
             (LoginData
                (mkJwt "jti-access-6" Access (id ana) 6 (6 + hours 24))
                (mkJwt "jti-refresh-6" Refresh (id ana) 6 (6 + days 30))
                (usuario_schema_dump (set_ultimo_login (Some 6) ana)))) 200) /\
  fst (auth.login (E:=example_externals) (U:=absent_methods) Config_empty 6
         "jti-access-6" "jti-refresh-6"
         (Some ("ana@movemarias.dev", "segredo1")) (snd run))
  = Raise AttributeError.
Proof.
  cbv zeta. repeat split; vm_compute; reflexivity.
Qed.

(** [is_blocked] is false from the end of the lock on: the timer alone
    never keeps an account blocked. *)
Lemma is_blocked_false_from_lock_end (now t : datetime) (usuario : Usuario) :
  bloqueado_ate usuario = Some t ->
  t <= now ->
  is_blocked now usuario = (Ok false, usuario).
Proof.
  intros Hlock Hle. rewrite is_blocked_spec, Hlock.
  replace (now <? t) with false; [reflexivity|]. symmetry. apply Z.ltb_ge. lia.
Qed.

(** C8, a defect of [login].  [bia] has three failed attempts on record and
    a lock that ended at t = 9000.  [is_blocked] is false from then on, as
    C8 says, but a login at t = 9500 is not evaluated under the Active
    rules, with the methods and the configuration as the source has them.
    With a wrong secret it is answered 401 and the failure is not counted:
    her row keeps [tentativas_login = 3] and the stale lock, where
    [increment_login_attempts] would have made the counter 4.  With the
    correct secret it ends in [TypeError] under [class Config], and in
    [AttributeError] where the expiry settings convert: no success, no
    reset, no token. *)
Theorem C8_stale_lock_login_skips_active_rules :
  (forall later, 9000 <= later -> is_blocked later bia = (Ok false, bia)) /\
  auth.login (E:=example_externals) (U:=absent_methods) Config_base 9500
    "a" "r" (Some ("bia@movemarias.dev", "errada")) example_state
  = (Ok invalid_credentials,
     logged 9500 "login_failed"
       [("email", "bia@movemarias.dev"); ("reason", "wrong_password")]
       example_state) /\
  usuarios (logged 9500 "login_failed"
              [("email", "bia@movemarias.dev"); ("reason", "wrong_password")]
              example_state) = [ana; bia; carla] /\
  tentativas_login bia = 3 /\
  bloqueado_ate bia = Some 9000 /\
  tentativas_login (snd (increment_login_attempts Config_base 9500 bia)) = 4 /\
  auth.login (E:=example_externals) (U:=absent_methods) Config_base 9500
    "a" "r" (Some ("bia@movemarias.dev", "segredo2")) example_state
  = (Raise TypeError, example_state) /\
  auth.login (E:=example_externals) (U:=absent_methods) Config_empty 9500
    "a" "r" (Some ("bia@movemarias.dev", "segredo2")) example_state
  = (Raise AttributeError, example_state).
Proof.
  split.
  - intros later Hlater. by apply (is_blocked_false_from_lock_end later 9000).
  - repeat split; vm_compute; reflexivity.
Qed.

(** ** Successful login (C3, C4) *)

(** [reset_login_attempts] is the method that does what a successful login
    is documented to do; [login] never calls it. *)
Lemma reset_login_attempts_spec (now : datetime) (usuario : Usuario) :
  reset_login_attempts now usuario =
  (Ok tt, set_ultimo_login (Some now)
            (set_bloqueado_ate None (set_tentativas_login 0 usuario))).
Proof. reflexivity. Qed.

(** C3, a defect of [login].  [bia] has three failed attempts on
    record and a lock until t = 9000.  A login with her correct secret at
    t = 9500 is answered 200 with a token pair when [update_last_login]
    stamps the login time, yet her row keeps [tentativas_login = 3] and
    [bloqueado_ate = Some 9000]: only [ultimo_login] changed.  With the
    methods as the source has them the same login ends in
    [AttributeError], returns no tokens and changes nothing. *)
Theorem C3_successful_login_does_not_reset :
  let out := auth.login (E:=example_externals) (U:=stamping_methods)
               Config_empty 9500 "jti-a" "jti-r"
               (Some ("bia@movemarias.dev", "segredo2")) example_state in
  fst out = Ok (mkResponse
                  (WithData true "Login realizado com sucesso"
                     (LoginData
                        (mkJwt "jti-a" Access (id bia) 9500 (9500 + hours 24))
                        (mkJwt "jti-r" Refresh (id bia) 9500 (9500 + days 30))
                        (usuario_schema_dump (set_ultimo_login (Some 9500) bia))))
                  200) /\
  usuarios (snd out) = [ana; set_ultimo_login (Some 9500) bia; carla] /\
  tentativas_login (set_ultimo_login (Some 9500) bia) = 3 /\
  bloqueado_ate (set_ultimo_login (Some 9500) bia) = Some 9000 /\
  snd (reset_login_attempts 9500 bia) <> set_ultimo_login (Some 9500) bia /\
  let out' := auth.login (E:=example_externals) (U:=absent_methods)
                Config_empty 9500 "jti-a" "jti-r"
                (Some ("bia@movemarias.dev", "segredo2")) example_state in
  fst out' = Raise AttributeError /\ usuarios (snd out') = [ana; bia; carla].
Proof.
  cbv zeta. repeat split; try (vm_compute; reflexivity). vm_compute. discriminate.
Qed.

Section Expiry.
Context {E : Externals} {U : UndefinedMethods}.

(** With a [timedelta] under either JWT key, as in every class of
    config.py, a login with valid credentials raises [TypeError] before
    any token exists, and changes nothing. *)
Lemma login_timedelta_setting_raises (cfg : Config) (now : datetime)
    (jti_access jti_refresh email_ senha : string) (s : AppState)
    (usuario : Usuario) (d : timedelta) :
  find_by_email email_ (usuarios s) = Some usuario ->
  ativo usuario = true ->
  check_password_hash (senha_hash usuario) senha = true ->
  JWT_ACCESS_TOKEN_EXPIRES cfg = Some (STimedelta d) ->
  auth.login cfg now jti_access jti_refresh (Some (email_, senha)) s
    = (Raise TypeError, s).
Proof.
  intros Hfind Hativo Hcheck Hcfg. unfold auth.login, check_password. run_m.
  rewrite Hfind, Hativo. cbn. rewrite Hcheck, Hcfg. reflexivity.
Qed.

(** With integers under the keys, or no keys, the tokens a login returns
    expire the configured number of hours and days after they were
    issued, 24 hours and 30 days by default. *)
Lemma login_tokens_expiry (cfg : Config) (now : datetime)
    (jti_access jti_refresh : string) (request_json : option (string * string))
    (s s' : AppState) (msg : string) (a r : Jwt) (u : UsuarioDump) (code : Z) :
  auth.login cfg now jti_access jti_refresh request_json s
    = (Ok (mkResponse (WithData true msg (LoginData a r u)) code), s') ->
  exists n m,
    config_get (JWT_ACCESS_TOKEN_EXPIRES cfg) 24 = SInt n /\
    config_get (JWT_REFRESH_TOKEN_EXPIRES cfg) 30 = SInt m /\
    typ a = Access /\ iat a = now /\ exp a = iat a + hours n /\ jti a = jti_access /\
    typ r = Refresh /\ iat r = now /\ exp r = iat r + days m /\ jti r = jti_refresh /\
    sub a = sub r.
Proof.
  unfold auth.login, check_password. run_m.
  destruct request_json as [[e p]|]; [|discriminate].
  destruct (find_by_email e (usuarios s)) as [usuario|]; [|discriminate].
  destruct (ativo usuario); cbn; [|discriminate].
  destruct (check_password_hash (senha_hash usuario) p); cbn; [|discriminate].
  destruct (config_get (JWT_ACCESS_TOKEN_EXPIRES cfg) 24) as [n|]; cbn;
    [|discriminate].
  destruct (config_get (JWT_REFRESH_TOKEN_EXPIRES cfg) 30) as [m|]; cbn;
    [|discriminate].
  destruct (update_last_login now usuario) as [[[]|] usuario']; [|discriminate].
  intros H. inversion H; subst. exists n, m. cbn. done.
Qed.

(** [verify_jwt_in_request] on an access token: accepted from its issue
    up to, not including, its expiry when the subject is on file;
    rejected as expired from the expiry on. *)
Lemma verify_access_token_in_time (now : datetime) (rows : list Usuario)
    (t : Jwt) (usuario : Usuario) :
  typ t = Access ->
  iat t <= now < exp t ->
  find_by_id (sub t) rows = Some usuario ->
  verify_jwt_in_request false now rows (Bearer t) = inr t.
Proof.
  intros Htyp [Hiat Hexp] Hfind. unfold verify_jwt_in_request, user_lookup_callback.
  replace (now <? iat t) with false by (symmetry; apply Z.ltb_ge; lia).
  replace (exp t <=? now) with false by (symmetry; apply Z.leb_gt; lia).
  rewrite Htyp, Hfind. reflexivity.
Qed.

Lemma verify_token_expired (refresh_ : bool) (now : datetime)
    (rows : list Usuario) (t : Jwt) :
  iat t <= now ->
  exp t <= now ->
  verify_jwt_in_request refresh_ now rows (Bearer t) = inl token_expired.
Proof.
  intros Hiat Hexp. unfold verify_jwt_in_request.
  replace (now <? iat t) with false by (symmetry; apply Z.ltb_ge; lia).
  replace (exp t <=? now) with true by (symmetry; apply Z.leb_le; lia).
  reflexivity.
Qed.

End Expiry.

(** C4, a defect of [login].  Under [class Config] of config.py
    ([JWT_ACCESS_TOKEN_EXPIRES = timedelta(hours=24)],
    [JWT_REFRESH_TOKEN_EXPIRES = timedelta(days=30)]) a login with valid
    credentials evaluates [timedelta(hours=timedelta(hours=24))] and raises
    [TypeError]: no token is issued, so none expires 24 hours or 30 days
    after its issue.  The fallbacks 24 and 30 of [login] give those
    expiries only when the keys are absent. *)
Theorem C4_login_raises_under_Config :
  auth.login (E:=example_externals) (U:=stamping_methods) Config_base 1000
    "jti-access-1" "jti-refresh-1" (Some ("ana@movemarias.dev", "segredo1"))
    example_state
  = (Raise TypeError, example_state) /\
  fst (auth.login (E:=example_externals) (U:=stamping_methods) Config_empty 1000
         "jti-access-1" "jti-refresh-1" (Some ("ana@movemarias.dev", "segredo1"))
         example_state)
  = Ok (mkResponse
          (WithData true "Login realizado com sucesso"
             (LoginData ana_access ana_refresh
                (usuario_schema_dump (set_ultimo_login (Some 1000) ana)))) 200) /\
  exp ana_access = iat ana_access + hours 24 /\
  exp ana_refresh = iat ana_refresh + days 30.
Proof.
  repeat split; vm_compute; reflexivity.
Qed.

(** ** What a failed login shows (C5) *)

(** C5 as stated fails: an unknown login name and the login name of the
    deactivated account [carla] with a wrong secret are both failed
    attempts, and their responses differ. *)
Lemma C5_counterexample :
  find_by_email (E:=example_externals) "ninguem@movemarias.dev"
    (usuarios example_state) = None /\
  find_by_email (E:=example_externals) "carla@movemarias.dev"
    (usuarios example_state) = Some carla /\
  check_password_hash (Externals:=example_externals) (senha_hash carla) "errada"
    = false /\
  fst (auth.login (E:=example_externals) (U:=stamping_methods) Config_empty 10
         "a" "r" (Some ("ninguem@movemarias.dev", "errada")) example_state)
  <> fst (auth.login (E:=example_externals) (U:=stamping_methods) Config_empty 10
            "a" "r" (Some ("carla@movemarias.dev", "errada")) example_state).
Proof.
  repeat split; try (vm_compute; reflexivity). vm_compute. discriminate.
Qed.

(** C5, amended.  For every unknown login name and every login name of an
    active account presented with a wrong secret, the two attempts get the
    same response, 401 with the message "Email ou senha inválidos", while
    the event log records [user_not_found] for the one and [wrong_password]
    for the other.  Apart from that, every attempt on a deactivated account
    gets a 401 of its own, "Usuário inativo. Entre em contato com o
    administrador.", whatever the secret, and the log records
    [user_inactive]. *)
Theorem C5_uniform_response_for_active_accounts
    {E : Externals} {U : UndefinedMethods} (cfg : Config) (now : datetime)
    (jti_access jti_refresh : string) (s : AppState) :
  (forall (unknown known p1 p2 : string) (usuario : Usuario),
     find_by_email unknown (usuarios s) = None ->
     find_by_email known (usuarios s) = Some usuario ->
     ativo usuario = true ->
     check_password_hash (senha_hash usuario) p2 = false ->
     let out1 :=
       auth.login cfg now jti_access jti_refresh (Some (unknown, p1)) s in
     let out2 :=
       auth.login cfg now jti_access jti_refresh (Some (known, p2)) s in
     fst out1 = fst out2 /\
     fst out1 = Ok (mkResponse (Message false "Email ou senha inválidos") 401) /\
     security_log (snd out1) = (security_log s ++
       [mkEvent now "login_failed"
          [("email", unknown); ("reason", "user_not_found")]])%list /\
     security_log (snd out2) = (security_log s ++
       [mkEvent now "login_failed"
          [("email", known); ("reason", "wrong_password")]])%list) /\
  (forall (dormant p3 : string) (inativo : Usuario),
     find_by_email dormant (usuarios s) = Some inativo ->
     ativo inativo = false ->
     let out3 :=
       auth.login cfg now jti_access jti_refresh (Some (dormant, p3)) s in
     fst out3 = Ok (mkResponse
       (Message false "Usuário inativo. Entre em contato com o administrador.")
       401) /\
     security_log (snd out3) = (security_log s ++
       [mkEvent now "login_failed"
          [("email", dormant); ("reason", "user_inactive")]])%list).
Proof.
  split.
  - intros unknown known p1 p2 usuario Hnone Hknown Hativo Hcheck. cbv zeta.
    rewrite (login_user_not_found cfg now jti_access jti_refresh unknown p1 s
               Hnone).
    rewrite (login_wrong_password cfg now jti_access jti_refresh known p2 s
               usuario Hknown Hativo Hcheck).
    repeat split.
  - intros dormant p3 inativo Hdormant Hinativo. cbv zeta.
    rewrite (login_user_inactive cfg now jti_access jti_refresh dormant p3 s
               inativo Hdormant Hinativo).
    repeat split.
Qed.

(** C5 on a table of active accounts only, at an unknown address and at
    [ana] with a wrong secret, and on the example table at [carla]. *)
Lemma C5_uniform_response_for_active_accounts_witness :
  fst (auth.login (E:=example_externals) (U:=absent_methods) Config_base 10
         "a" "r" (Some ("ninguem@movemarias.dev", "x"))
         (mkState [ana; bia] ∅ []))
  = fst (auth.login (E:=example_externals) (U:=absent_methods) Config_base 10
           "a" "r" (Some ("ana@movemarias.dev", "errada"))
           (mkState [ana; bia] ∅ [])) /\
  fst (auth.login (E:=example_externals) (U:=absent_methods) Config_base 10
         "a" "r" (Some ("carla@movemarias.dev", "segredo3")) example_state)
  = Ok (mkResponse
          (Message false "Usuário inativo. Entre em contato com o administrador.")
          401).
Proof.
  split.
  - exact (proj1 (proj1 (C5_uniform_response_for_active_accounts
                    (E:=example_externals) (U:=absent_methods) Config_base 10
                    "a" "r" (mkState [ana; bia] ∅ []))
                    "ninguem@movemarias.dev" "ana@movemarias.dev" "x" "errada"
                    ana eq_refl eq_refl eq_refl eq_refl)).
  - exact (proj1 (proj2 (C5_uniform_response_for_active_accounts
                    (E:=example_externals) (U:=absent_methods) Config_base 10
                    "a" "r" example_state)
                    "carla@movemarias.dev" "segredo3" carla eq_refl eq_refl)).
Defined.

(** ** Passwords (C9) *)

(** C9.  When [set_password(s)] has stored the hash bcrypt generated for
    [s] and bcrypt checks a password against its own hash,
    [check_password(s)] on the account returns true; and [check_password],
    with any argument, leaves every field of the account as it was. *)
Theorem C9_set_then_check_password {E : Externals} (salt senha : string)
    (usuario usuario' : Usuario) :
  (forall salt' senha' h,
     generate_password_hash salt' senha' = Ok h ->
     check_password_hash h senha' = true) ->
  set_password salt senha usuario = (Ok tt, usuario') ->
  check_password senha usuario' = (Ok true, usuario') /\
  (forall other (u : Usuario), snd (check_password other u) = u) /\
  (forall other, snd (check_password other usuario') = usuario').
Proof.
  intros Hbcrypt Hset. unfold set_password, check_password in *. run_m.
  destruct (generate_password_hash salt senha) as [h|e] eqn:Hgen; [|discriminate].
  injection Hset as <-. cbn. rewrite (Hbcrypt salt senha h Hgen).
  repeat split.
Qed.

(** The stand-in for bcrypt checks a password against its own hash. *)
Lemma example_bcrypt_roundtrip (salt senha h : string) :
  generate_password_hash (Externals:=example_externals) salt senha = Ok h ->
  check_password_hash (Externals:=example_externals) h senha = true.
Proof.
  cbn. destruct (String.eqb senha ""); [discriminate|].
  destruct (no_dollar salt) eqn:Hsalt; [|discriminate].
  intros [= <-]. apply String.eqb_eq.
  induction salt as [|c salt IH]; [reflexivity|].
  cbn in Hsalt. apply andb_prop in Hsalt as [Hc Hrest].
  apply negb_true_iff in Hc.
  change (drop_salt (String c (salt +:+ "$" +:+ senha)) = senha).
  cbn [drop_salt]. rewrite Hc. apply IH, Hrest.
Qed.

(** C9 at [ana] with the stand-in for bcrypt. *)
Lemma C9_set_then_check_password_witness :
  check_password (E:=example_externals) "nova-senha"
    (set_senha_hash "sal$nova-senha" ana)
  = (Ok true, set_senha_hash "sal$nova-senha" ana).
Proof.
  exact (proj1 (C9_set_then_check_password (E:=example_externals)
                  "sal" "nova-senha" ana (set_senha_hash "sal$nova-senha" ana)
                  example_bcrypt_roundtrip eq_refl)).
Defined.

(** ** The revocation registry (C2, C6, C7, C10) *)

Section Registry.
Context {E : Externals} {U : UndefinedMethods}.

Lemma login_keeps_revoked (cfg : Config) (now : datetime)
    (jti_access jti_refresh : string) (request_json : option (string * string))
    (s : AppState) :
  revoked_tokens
    (snd (auth.login cfg now jti_access jti_refresh request_json s))
  = revoked_tokens s.
Proof. unfold auth.login, check_password. crunch; reflexivity. Qed.

(** [logout] on a token the decorator lets through. *)
Lemma logout_accepted (now : datetime) (t : Jwt) (s : AppState) :
  verify_jwt_in_request false now (usuarios s) (Bearer t) = inr t ->
  auth.logout now (Bearer t) s =
  (Ok (mkResponse (Message true "Logout realizado com sucesso") 200),
   logged now "logout" [("user_id", sub t)]
     (set_revoked_tokens ({[jti t]} ∪ revoked_tokens s) s)).
Proof. intros Hv. unfold auth.logout. run_m. rewrite Hv. reflexivity. Qed.

(** A logout answered 200 was given a bearer token and added its [jti]. *)
Lemma logout_200 (now : datetime) (a : Authorization) (s s1 : AppState)
    (resp : Response) :
  auth.logout now a s = (Ok resp, s1) ->
  status resp = 200 ->
  exists t, a = Bearer t /\
    verify_jwt_in_request false now (usuarios s) (Bearer t) = inr t /\
    usuarios s1 = usuarios s /\
    revoked_tokens s1 = {[jti t]} ∪ revoked_tokens s.
Proof.
  unfold auth.logout. run_m. intros Hout Hstatus.
  destruct (verify_jwt_in_request false now (usuarios s) a) as [e|t] eqn:Hv.
  - injection Hout as <- <-. destruct e; discriminate.
  - injection Hout as <- <-.
    assert (a = Bearer t) as ->; [|by exists t].
    unfold verify_jwt_in_request in Hv. repeat case_match; congruence.
Qed.

Lemma logout_keeps_rows (now : datetime) (a : Authorization) (s : AppState) :
  usuarios (snd (auth.logout now a s)) = usuarios s.
Proof. unfold auth.logout. crunch; reflexivity. Qed.

Lemma logout_revoked_cases (now : datetime) (a : Authorization) (s : AppState) :
  revoked_tokens (snd (auth.logout now a s)) = revoked_tokens s \/
  exists t, a = Bearer t /\
    revoked_tokens (snd (auth.logout now a s)) = {[jti t]} ∪ revoked_tokens s.
Proof.
  unfold auth.logout. run_m.
  destruct (verify_jwt_in_request false now (usuarios s) a) as [e|t] eqn:Hv;
    [by left|right].
  exists t. split; [|reflexivity].
  unfold verify_jwt_in_request in Hv. repeat case_match; congruence.
Qed.

(** The hook and [refresh] read the state through the registry and the
    rows only. *)
Lemma hook_reads_registry (endpoint : option string) (ctx : option Jwt)
    (s s' : AppState) :
  revoked_tokens s = revoked_tokens s' ->
  fst (auth.check_if_token_revoked endpoint ctx s)
  = fst (auth.check_if_token_revoked endpoint ctx s').
Proof.
  intros Hr. unfold auth.check_if_token_revoked.
  destruct (match endpoint with
            | Some e => negb (String.eqb e "") && str_in "auth" e
            | None => false
            end); [reflexivity|].
  destruct ctx as [jwt|]; [|reflexivity].
  run_m. rewrite Hr. by destruct (bool_decide _).
Qed.

Lemma refresh_reads_registry_and_rows (cfg : Config) (now : datetime)
    (new_jti : string) (a : Authorization) (s s' : AppState) :
  revoked_tokens s = revoked_tokens s' ->
  usuarios s = usuarios s' ->
  fst (auth.refresh cfg now new_jti a s) = fst (auth.refresh cfg now new_jti a s').
Proof.
  intros Hr Hu. unfold auth.refresh. run_m. rewrite Hu.
  destruct (verify_jwt_in_request true now (usuarios s') a) as [e|t];
    [reflexivity|].
  repeat first [rewrite Hr | rewrite Hu | progress run_m | case_match];
    reflexivity.
Qed.

Lemma refresh_keeps_state (cfg : Config) (now : datetime) (new_jti : string)
    (a : Authorization) (s : AppState) :
  snd (auth.refresh cfg now new_jti a s) = s.
Proof. unfold auth.refresh. crunch; reflexivity. Qed.

Lemma get_current_user_keeps_state (now : datetime) (a : Authorization)
    (s : AppState) :
  snd (auth.get_current_user now a s) = s.
Proof. unfold auth.get_current_user. crunch; reflexivity. Qed.

Lemma verify_token_keeps_state (now : datetime) (a : Authorization)
    (s : AppState) :
  snd (auth.verify_token now a s) = s.
Proof. unfold auth.verify_token. crunch; reflexivity. Qed.

Lemma change_password_keeps_revoked (now : datetime) (salt : string)
    (data : option dict) (a : Authorization) (s : AppState) :
  revoked_tokens (snd (auth.change_password now salt data a s))
  = revoked_tokens s.
Proof.
  unfold auth.change_password, check_password, set_password.
  crunch; reflexivity.
Qed.

Lemma hook_keeps_state (endpoint : option string) (ctx : option Jwt)
    (s : AppState) :
  snd (auth.check_if_token_revoked endpoint ctx s) = s.
Proof. unfold auth.check_if_token_revoked. crunch; reflexivity. Qed.

Lemma hook_never_raises (endpoint : option string) (ctx : option Jwt)
    (s : AppState) :
  exists r, fst (auth.check_if_token_revoked endpoint ctx s) = Ok r.
Proof. unfold auth.check_if_token_revoked. crunch; eauto. Qed.

(** Every request leaves the registry at least as large as it found it. *)
Lemma dispatch_revoked_mono (cfg : Config) (now : datetime) (req : Request)
    (s : AppState) :
  revoked_tokens s ⊆ revoked_tokens (snd (full_dispatch_request cfg now req s)).
Proof.
  unfold full_dispatch_request, bind.
  pose proof (hook_keeps_state (endpoint_of (route req)) None s) as Hs.
  destruct (auth.check_if_token_revoked _ _ s) as [[[r|]|e] s']; cbn in Hs;
    subst s'; [done| |done].
  destruct (route req).
  - by rewrite login_keeps_revoked.
  - by rewrite refresh_keeps_state.
  - destruct (logout_revoked_cases now (authorization req) s)
      as [->|(t & _ & ->)]; set_solver.
  - by rewrite get_current_user_keeps_state.
  - by rewrite change_password_keeps_revoked.
  - by rewrite verify_token_keeps_state.
  - done.
Qed.

Lemma serve_revoked_mono (cfg : Config) (history : list (datetime * Request))
    (s : AppState) :
  revoked_tokens s ⊆ revoked_tokens (serve cfg history s).
Proof.
  revert s. induction history as [|[now req] rest IH]; intros s; [done|].
  cbn [serve]. etrans; [apply (dispatch_revoked_mono cfg now req)|apply IH].
Qed.

End Registry.

(** C10.  No request removes a [jti] from [revoked_tokens]: login and
    refresh, the read-only views and a change of password leave the
    registry as it is, logout leaves it as it is or adds one [jti], so every
    request, and every history of requests, ends with a registry that
    contains the one it started from; a [jti] once revoked is revoked in
    every later state. *)
Theorem C10_registry_only_grows {E : Externals} {U : UndefinedMethods}
    (cfg : Config) :
  (forall now jti_access jti_refresh request_json s,
     revoked_tokens
       (snd (auth.login cfg now jti_access jti_refresh request_json s))
     = revoked_tokens s) /\
  (forall now new_jti a s,
     revoked_tokens (snd (auth.refresh cfg now new_jti a s)) = revoked_tokens s) /\
  (forall now a s,
     revoked_tokens s ⊆ revoked_tokens (snd (auth.logout now a s))) /\
  (forall now a s,
     revoked_tokens (snd (auth.verify_token now a s)) = revoked_tokens s) /\
  (forall now req s,
     revoked_tokens s
       ⊆ revoked_tokens (snd (full_dispatch_request cfg now req s))) /\
  (forall history s j,
     j ∈ revoked_tokens s -> j ∈ revoked_tokens (serve cfg history s)).
Proof.
  repeat split.
  - intros. apply login_keeps_revoked.
  - intros. by rewrite refresh_keeps_state.
  - intros now a s.
    destruct (logout_revoked_cases now a s) as [->|(t & _ & ->)]; set_solver.
  - intros. by rewrite verify_token_keeps_state.
  - intros. apply dispatch_revoked_mono.
  - intros history s j Hj. by apply (serve_revoked_mono cfg history s).
Qed.

(** C7.  After a logout that revoked a token, a second logout with the
    same credential, at any time, leaves the registry and the account rows
    as the first left them; every membership test, every run of the
    revocation hook and every refresh afterwards answers as it would have
    after the first logout alone. *)
Theorem C7_logout_twice_is_logout_once (now1 now2 : datetime) (a : Authorization) (s s1 : AppState)
    (resp : Response) :
  auth.logout now1 a s = (Ok resp, s1) ->
  status resp = 200 ->
  let s2 := snd (auth.logout now2 a s1) in
  revoked_tokens s2 = revoked_tokens s1 /\
  usuarios s2 = usuarios s1 /\
  (forall j, bool_decide (j ∈ revoked_tokens s2)
             = bool_decide (j ∈ revoked_tokens s1)) /\
  (forall endpoint ctx,
     fst (auth.check_if_token_revoked endpoint ctx s2)
     = fst (auth.check_if_token_revoked endpoint ctx s1)) /\
  (forall cfg now new_jti a',
     fst (auth.refresh cfg now new_jti a' s2)
     = fst (auth.refresh cfg now new_jti a' s1)).
Proof.
  intros Hout Hstatus s2.
  destruct (logout_200 now1 a s s1 resp Hout Hstatus) as (t & -> & _ & _ & Hrev).
  assert (revoked_tokens s2 = revoked_tokens s1) as Hsame.
  { subst s2.
    destruct (logout_revoked_cases now2 (Bearer t) s1)
      as [->|(t' & [= <-] & ->)]; [done|].
    by rewrite Hrev, (assoc_L (∪)), union_idemp_L. }
  assert (usuarios s2 = usuarios s1) as Hrows by apply logout_keeps_rows.
  repeat split; try done.
  - intros j. by rewrite Hsame.
  - intros endpoint ctx. by apply hook_reads_registry.
  - intros cfg now new_jti a'. by apply refresh_reads_registry_and_rows.
Qed.

(** C7 at [ana]'s access token, logged out at t = 2000 and t = 3000. *)
Lemma C7_logout_twice_is_logout_once_witness :
  revoked_tokens
    (snd (auth.logout 3000 (Bearer ana_access)
            (snd (auth.logout 2000 (Bearer ana_access) example_state))))
  = revoked_tokens (snd (auth.logout 2000 (Bearer ana_access) example_state)).
Proof.
  exact (proj1 (C7_logout_twice_is_logout_once
                  2000 3000 (Bearer ana_access) example_state
                  (snd (auth.logout 2000 (Bearer ana_access) example_state))
                  (mkResponse (Message true "Logout realizado com sucesso") 200)
                  eq_refl eq_refl)).
Defined.

Lemma verify_refresh_token_in_time (now : datetime) (rows : list Usuario)
    (t : Jwt) (usuario : Usuario) :
  typ t = Refresh ->
  iat t <= now < exp t ->
  find_by_id (sub t) rows = Some usuario ->
  verify_jwt_in_request true now rows (Bearer t) = inr t.
Proof.
  intros Htyp [Hiat Hexp] Hfind. unfold verify_jwt_in_request, user_lookup_callback.
  replace (now <? iat t) with false by (symmetry; apply Z.ltb_ge; lia).
  replace (exp t <=? now) with false by (symmetry; apply Z.leb_gt; lia).
  rewrite Htyp, Hfind. reflexivity.
Qed.

(** [refresh] on a refresh token in its validity period, not in the
    registry, of an active account, with an integer (or no) access
    setting. *)
Lemma refresh_accepted (cfg : Config) (now : datetime) (new_jti : string)
    (t : Jwt) (usuario : Usuario) (n : Z) (s : AppState) :
  typ t = Refresh ->
  iat t <= now < exp t ->
  jti t ∉ revoked_tokens s ->
  find_by_id (sub t) (usuarios s) = Some usuario ->
  ativo usuario = true ->
  config_get (JWT_ACCESS_TOKEN_EXPIRES cfg) 24 = SInt n ->
  auth.refresh cfg now new_jti (Bearer t) s =
  (Ok (mkResponse
         (WithData true "Token renovado com sucesso"
            (RefreshData (create_access_token now new_jti (sub t) (hours n))))
         200), s).
Proof.
  intros Htyp Htime Hfresh Hfind Hativo Hcfg. unfold auth.refresh. run_m.
  rewrite (verify_refresh_token_in_time now (usuarios s) t usuario Htyp Htime Hfind).
  run_m. rewrite (bool_decide_eq_false_2 _ Hfresh), Hfind, Hativo, Hcfg.
  reflexivity.
Qed.

(** [refresh] on a token whose [jti] is in the registry. *)
Lemma refresh_revoked (cfg : Config) (now : datetime) (new_jti : string)
    (t : Jwt) (s : AppState) :
  verify_jwt_in_request true now (usuarios s) (Bearer t) = inr t ->
  jti t ∈ revoked_tokens s ->
  auth.refresh cfg now new_jti (Bearer t) s =
  (Ok (mkResponse (Message false "Token inválido") 401), s).
Proof.
  intros Hv Hin. unfold auth.refresh. run_m. rewrite Hv. run_m.
  by rewrite (bool_decide_eq_true_2 _ Hin).
Qed.


(** With no claims in the request context the hook returns nothing, at any
    endpoint and whatever is on the registry. *)
Lemma hook_passes_without_claims (endpoint : option string) (s : AppState) :
  auth.check_if_token_revoked endpoint None s = (Ok None, s).
Proof.
  unfold auth.check_if_token_revoked.
  by destruct (match endpoint with
               | Some e => negb (String.eqb e "") && str_in "auth" e
               | None => false
               end).
Qed.

(** An access token in its validity period whose subject has a row is
    answered 200 by [verify_token], through the hook, whatever the registry
    holds. *)
Lemma verify_token_ignores_registry {E : Externals} {U : UndefinedMethods}
    (cfg : Config) (now : datetime) (t : Jwt) (usuario : Usuario)
    (s : AppState) :
  typ t = Access ->
  iat t <= now < exp t ->
  find_by_id (sub t) (usuarios s) = Some usuario ->
  full_dispatch_request cfg now (mkRequest GET_verify_token (Bearer t)) s
  = (Ok (mkResponse (WithData true "Token válido" (VerifyData (sub t) true)) 200),
     s).
Proof.
  intros Htyp Htime Hfind. unfold full_dispatch_request, bind.
  rewrite hook_passes_without_claims. cbn [route authorization].
  unfold auth.verify_token. run_m.
  by rewrite (verify_access_token_in_time now (usuarios s) t usuario Htyp Htime
                Hfind).
Qed.

(** C2, a defect of the revocation check.  [ana]'s access token is revoked
    by a logout at t = 2000, which puts its [jti] on the registry.  One
    second later the same token, presented to the protected endpoints
    [verify_token] and [get_current_user] and to [logout] again, is
    answered 200 each time, not rejected as revoked: the hook
    [check_if_token_revoked] runs before any token is decoded and returns
    at once for an endpoint whose name contains "auth", and
    [@jwt_required] consults no blocklist.  Presented after its expiry the
    token is rejected as expired, not as revoked. *)
Theorem C2_revoked_token_still_accepted :
  let s1 := snd (auth.logout 2000 (Bearer ana_access) example_state) in
  jti ana_access ∈ revoked_tokens s1 /\
  fst (full_dispatch_request (E:=example_externals) (U:=absent_methods)
         Config_base 2001 (mkRequest GET_verify_token (Bearer ana_access)) s1)
  = Ok (mkResponse (WithData true "Token válido" (VerifyData (id ana) true)) 200) /\
  fst (full_dispatch_request (E:=example_externals) (U:=absent_methods)
         Config_base 2001 (mkRequest GET_me (Bearer ana_access)) s1)
  = Ok (mkResponse (WithData true "Dados do usuário obtidos com sucesso"
                      (UserData (usuario_schema_dump ana))) 200) /\
  fst (full_dispatch_request (E:=example_externals) (U:=absent_methods)
         Config_base 2001 (mkRequest POST_logout (Bearer ana_access)) s1)
  = Ok (mkResponse (Message true "Logout realizado com sucesso") 200) /\
  fst (full_dispatch_request (E:=example_externals) (U:=absent_methods)
         Config_base 2001
         (mkRequest (other_view (Some "health.health_check")
                       (mkResponse (Message true "healthy") 200))
            (Bearer ana_access)) s1)
  = Ok (mkResponse (Message true "healthy") 200) /\
  fst (full_dispatch_request (E:=example_externals) (U:=absent_methods)
         Config_base (exp ana_access + 1)
         (mkRequest GET_verify_token (Bearer ana_access)) s1)
  = Ok (jwt_error_response token_expired).
Proof.
  cbv zeta. split; [|repeat split; vm_compute; reflexivity].
  rewrite (logout_accepted 2000 ana_access example_state eq_refl). cbn.
  apply elem_of_union_l, elem_of_singleton. reflexivity.
Qed.

(** * Further properties of the account model *)

(** ** The lockout counter *)

Lemma set_tentativas_login_same (u : Usuario) :
  set_tentativas_login (tentativas_login u) u = u.
Proof. by destruct u. Qed.

(** One call of [increment_login_attempts]. *)
Lemma increment_login_attempts_spec (cfg : Config) (now : datetime) (u : Usuario) :
  increment_login_attempts cfg now u =
  (Ok tt,
   if getattr (MAX_LOGIN_ATTEMPTS cfg) 5 <=? tentativas_login u + 1
   then set_bloqueado_ate
          (Some (now + minutes (getattr (LOGIN_ATTEMPT_TIMEOUT cfg) 15)))
          (set_tentativas_login (tentativas_login u + 1) u)
   else set_tentativas_login (tentativas_login u + 1) u).
Proof.
  unfold increment_login_attempts. run_m. cbn.
  by destruct (getattr (MAX_LOGIN_ATTEMPTS cfg) 5 <=? tentativas_login u + 1).
Qed.

Lemma failed_attempts_app (cfg : Config) (earlier later : list datetime)
    (u : Usuario) :
  failed_attempts cfg (earlier ++ later)%list u
  = failed_attempts cfg later (snd (failed_attempts cfg earlier u)).
Proof.
  revert u. induction earlier as [|now rest IH]; intros u; [reflexivity|].
  cbn [failed_attempts app]. unfold bind.
  rewrite increment_login_attempts_spec. apply IH.
Qed.

(** Failed attempts change the counter and the lock and nothing else. *)
Lemma failed_attempts_shape (cfg : Config) (times : list datetime) (u : Usuario) :
  exists b,
    failed_attempts cfg times u =
    (Ok tt, set_bloqueado_ate b
              (set_tentativas_login
                 (tentativas_login u + Z.of_nat (List.length times)) u)).
Proof.
  revert u. induction times as [|now rest IH]; intros u.
  - exists (bloqueado_ate u). cbn. rewrite Z.add_0_r. by destruct u.
  - cbn [failed_attempts]. unfold bind. rewrite increment_login_attempts_spec.
    match goal with |- context [failed_attempts cfg rest ?v] =>
      destruct (IH v) as [b ->] end.
    exists b. f_equal.
    destruct (getattr (MAX_LOGIN_ATTEMPTS cfg) 5 <=? tentativas_login u + 1);
      destruct u; cbn; unfold set_bloqueado_ate, set_tentativas_login; cbn;
      f_equal; lia.
Qed.

(** The counting step shared by the results below. *)
Lemma failed_attempts_only_count (cfg : Config) (times : list datetime)
    (u : Usuario) :
  tentativas_login u + Z.of_nat (List.length times)
    < getattr (MAX_LOGIN_ATTEMPTS cfg) 5 ->
  failed_attempts cfg times u =
  (Ok tt, set_tentativas_login
            (tentativas_login u + Z.of_nat (List.length times)) u).
Proof.
  revert u. induction times as [|now rest IH]; intros u Hlt.
  - cbn. by rewrite Z.add_0_r, set_tentativas_login_same.
  - cbn [failed_attempts]. unfold bind. rewrite increment_login_attempts_spec.
    cbn [List.length] in Hlt.
    replace (getattr (MAX_LOGIN_ATTEMPTS cfg) 5 <=? tentativas_login u + 1)
      with false by (symmetry; apply Z.leb_gt; lia).
    rewrite IH by (cbn; lia). cbn [List.length].
    f_equal. destruct u. unfold set_tentativas_login. cbn. f_equal. lia.
Qed.

(** X1.  While the counter stays below [MAX_LOGIN_ATTEMPTS] (5 when the setting
    is absent), failed attempts only count: the counter grows by their
    number and the lock, like every other field, is left as it was. *)
Theorem failed_attempts_below_threshold (cfg : Config) (times : list datetime)
    (u : Usuario) :
  tentativas_login u + Z.of_nat (List.length times)
    < getattr (MAX_LOGIN_ATTEMPTS cfg) 5 ->
  failed_attempts cfg times u =
  (Ok tt, set_tentativas_login
            (tentativas_login u + Z.of_nat (List.length times)) u).
Proof.
  revert u. induction times as [|now rest IH]; intros u Hlt.
  - cbn. by rewrite Z.add_0_r, set_tentativas_login_same.
  - cbn [failed_attempts]. unfold bind. rewrite increment_login_attempts_spec.
    cbn [List.length] in Hlt.
    replace (getattr (MAX_LOGIN_ATTEMPTS cfg) 5 <=? tentativas_login u + 1)
      with false by (symmetry; apply Z.leb_gt; lia).
    rewrite IH by (cbn; lia). cbn [List.length].
    f_equal. destruct u. unfold set_tentativas_login. cbn. f_equal. lia.
Qed.

Lemma failed_attempts_below_threshold_witness :
  failed_attempts Config_empty [10; 20; 30; 40] ana
  = (Ok tt, set_tentativas_login 4 ana).
Proof.
  exact (failed_attempts_below_threshold Config_empty [10; 20; 30; 40] ana
           ltac:(cbn; lia)).
Defined.

(** X2.  The attempt that brings the counter to [MAX_LOGIN_ATTEMPTS] or beyond
    sets the lock [LOGIN_ATTEMPT_TIMEOUT] minutes (15 when absent) after
    the time of that attempt, whatever lock was there before: every further
    failure pushes the lock forward. *)
Theorem failed_attempts_reach_threshold (cfg : Config) (earlier : list datetime)
    (last : datetime) (u : Usuario) :
  getattr (MAX_LOGIN_ATTEMPTS cfg) 5
    <= tentativas_login u + Z.of_nat (List.length earlier) + 1 ->
  failed_attempts cfg (earlier ++ [last])%list u =
  (Ok tt,
   set_bloqueado_ate
     (Some (last + minutes (getattr (LOGIN_ATTEMPT_TIMEOUT cfg) 15)))
     (set_tentativas_login
        (tentativas_login u + Z.of_nat (List.length earlier) + 1) u)).
Proof.
  intros Hge. rewrite failed_attempts_app.
  destruct (failed_attempts_shape cfg earlier u) as [b ->]. cbn [snd].
  cbn [failed_attempts]. unfold bind. rewrite increment_login_attempts_spec.
  cbn [ret tentativas_login set_bloqueado_ate set_tentativas_login].
  replace (getattr (MAX_LOGIN_ATTEMPTS cfg) 5
             <=? tentativas_login u + Z.of_nat (List.length earlier) + 1)
    with true by (symmetry; apply Z.leb_le; lia).
  reflexivity.
Qed.

Lemma failed_attempts_reach_threshold_witness :
  failed_attempts Config_empty [10; 20; 30; 40; 50] ana
  = (Ok tt, set_bloqueado_ate (Some 950) (set_tentativas_login 5 ana)).
Proof.
  exact (failed_attempts_reach_threshold Config_empty [10; 20; 30; 40] 50 ana
           ltac:(cbn; lia)).
Defined.

(** X3.  After the attempt that sets the lock at time [now], [is_blocked] holds
    at exactly the times before [now] plus the timeout: the account is
    blocked from the attempt on when the timeout is positive, and free
    again from [now + timeout] on. *)
Theorem is_blocked_after_locking_attempt (cfg : Config) (now t : datetime)
    (u : Usuario) :
  getattr (MAX_LOGIN_ATTEMPTS cfg) 5 <= tentativas_login u + 1 ->
  fst (is_blocked t (snd (increment_login_attempts cfg now u)))
  = Ok (t <? now + minutes (getattr (LOGIN_ATTEMPT_TIMEOUT cfg) 15)).
Proof.
  intros Hge. rewrite increment_login_attempts_spec. cbn [snd].
  replace (getattr (MAX_LOGIN_ATTEMPTS cfg) 5 <=? tentativas_login u + 1)
    with true by (symmetry; apply Z.leb_le; lia).
  by rewrite is_blocked_spec.
Qed.

Lemma is_blocked_after_locking_attempt_witness :
  fst (is_blocked 10899
         (snd (increment_login_attempts Config_empty 10000
                 (set_tentativas_login 4 ana)))) = Ok true /\
  fst (is_blocked 10900
         (snd (increment_login_attempts Config_empty 10000
                 (set_tentativas_login 4 ana)))) = Ok false.
Proof.
  split.
  - exact (is_blocked_after_locking_attempt Config_empty 10000 10899
             (set_tentativas_login 4 ana) ltac:(cbn; lia)).
  - exact (is_blocked_after_locking_attempt Config_empty 10000 10900
             (set_tentativas_login 4 ana) ltac:(cbn; lia)).
Defined.

(** X4.  [reset_login_attempts] starts a new cycle: whatever the counter and
    the lock were, after the reset and fewer than [MAX_LOGIN_ATTEMPTS]
    further failures the counter is the number of those failures and the
    account is blocked at no time. *)
Theorem reset_then_failures_below_threshold (cfg : Config) (now t : datetime)
    (times : list datetime) (u : Usuario) :
  Z.of_nat (List.length times) < getattr (MAX_LOGIN_ATTEMPTS cfg) 5 ->
  let u' := snd (failed_attempts cfg times (snd (reset_login_attempts now u))) in
  tentativas_login u' = Z.of_nat (List.length times) /\
  bloqueado_ate u' = None /\
  ultimo_login u' = Some now /\
  fst (is_blocked t u') = Ok false.
Proof.
  intros Hlt u'. subst u'. rewrite reset_login_attempts_spec. cbn [snd].
  rewrite failed_attempts_only_count by (cbn; lia).
  cbn [snd]. rewrite is_blocked_spec. cbn. done.
Qed.

Lemma reset_then_failures_below_threshold_witness :
  fst (is_blocked 100
         (snd (failed_attempts Config_empty [10; 20; 30; 40]
                 (snd (reset_login_attempts 5 bia))))) = Ok false.
Proof.
  exact (proj2 (proj2 (proj2 (reset_then_failures_below_threshold Config_empty
           5 100 [10; 20; 30; 40] bia ltac:(cbn; lia))))).
Defined.

(** ** Account types *)

(** X5.  [get_admins] and [get_profissionais] split the table: every row is in
    exactly one of the two results, in which [is_admin], respectively
    [is_profissional], holds of it and the other test fails; the two
    results together have as many rows as the table. *)
Theorem get_admins_get_profissionais_partition (rows : list Usuario) :
  (List.length (get_admins rows) + List.length (get_profissionais rows)
   = List.length rows)%nat /\
  (forall u, In u rows <-> In u (get_admins rows) \/ In u (get_profissionais rows)) /\
  (forall u, In u (get_admins rows) ->
     ~ In u (get_profissionais rows) /\
     fst (is_admin u) = Ok true /\ fst (is_profissional u) = Ok false) /\
  (forall u, In u (get_profissionais rows) ->
     ~ In u (get_admins rows) /\
     fst (is_profissional u) = Ok true /\ fst (is_admin u) = Ok false).
Proof.
  unfold get_admins, get_profissionais. split; [|split; [|split]].
  - induction rows as [|u rest IH]; [reflexivity|].
    cbn. destruct (tipo_usuario u); cbn; lia.
  - intros u. rewrite !filter_In. destruct (tipo_usuario u); tauto.
  - intros u. rewrite !filter_In. unfold is_admin, is_profissional. run_m.
    destruct (tipo_usuario u); intros [? ?]; try discriminate.
    repeat split; try reflexivity. intros [_ ?]. discriminate.
  - intros u. rewrite !filter_In. unfold is_admin, is_profissional. run_m.
    destruct (tipo_usuario u); intros [? ?]; try discriminate.
    repeat split; try reflexivity. intros [_ ?]. discriminate.
Qed.

(** ** Creating and finding accounts *)

Section Directory.
Context {E : Externals}.

Lemma find_by_email_app_none (e : string) (rows more : list Usuario) :
  find_by_email e rows = None ->
  find_by_email e (rows ++ more)%list = find_by_email e more.
Proof.
  unfold find_by_email. induction rows as [|u rest IH]; [done|].
  cbn. destruct (String.eqb (email u) (lower_strip e)); [discriminate|apply IH].
Qed.

Lemma find_by_email_app_some (e : string) (rows more : list Usuario)
    (u : Usuario) :
  find_by_email e rows = Some u ->
  find_by_email e (rows ++ more)%list = Some u.
Proof.
  unfold find_by_email. induction rows as [|v rest IH]; [discriminate|].
  cbn. destruct (String.eqb (email v) (lower_strip e)); [done|apply IH].
Qed.

Lemma find_by_email_normalised (e1 e2 : string) (rows : list Usuario) :
  lower_strip e1 = lower_strip e2 ->
  find_by_email e1 rows = find_by_email e2 rows.
Proof. unfold find_by_email. by intros ->. Qed.

Lemma Usuario_init_fields (new_id salt nome_ email_ senha : string)
    (tipo : TipoUsuarioEnum) (u : Usuario) :
  Usuario_init new_id salt nome_ email_ senha tipo = Ok u ->
  exists h,
    generate_password_hash salt senha = Ok h /\
    u = mkUsuario new_id nome_ (lower_strip email_) h tipo true None 0 None.
Proof.
  unfold Usuario_init, set_password. run_m.
  destruct (generate_password_hash salt senha) as [h|e]; [|discriminate].
  intros [= <-]. by exists h.
Qed.

Lemma find_by_email_new_row (e : string) (u : Usuario) :
  email u = lower_strip e ->
  find_by_email e [u] = Some u.
Proof.
  intros He. unfold find_by_email. cbn. by rewrite He, String.eqb_refl.
Qed.

End Directory.

(** X6.  An account built by the constructor and added to a table that has no
    row with its address is the one [find_by_email] returns for every
    spelling of the address that normalises alike; the password it was
    built with checks, it is active, has no failed attempt on record and is
    blocked at no time. *)
Theorem Usuario_init_then_find_and_check {E : Externals}
    (new_id salt nome_ email_ senha spelled : string) (tipo : TipoUsuarioEnum)
    (rows : list Usuario) (u : Usuario) (t : datetime) :
  (forall salt' senha' h,
     generate_password_hash salt' senha' = Ok h ->
     check_password_hash h senha' = true) ->
  Usuario_init new_id salt nome_ email_ senha tipo = Ok u ->
  find_by_email email_ rows = None ->
  lower_strip spelled = lower_strip email_ ->
  find_by_email spelled (rows ++ [u])%list = Some u /\
  fst (check_password senha u) = Ok true /\
  ativo u = true /\
  tentativas_login u = 0 /\
  fst (is_blocked t u) = Ok false.
Proof.
  intros Hbcrypt Hinit Hnone Hspelled.
  destruct (Usuario_init_fields _ _ _ _ _ _ _ Hinit) as (h & Hgen & ->).
  split; [|split; [|done]].
  - rewrite (find_by_email_normalised spelled email_ _ Hspelled).
    rewrite (find_by_email_app_none _ _ _ Hnone).
    by apply find_by_email_new_row.
  - unfold check_password. run_m. cbn. by rewrite (Hbcrypt salt senha h Hgen).
Qed.

Lemma Usuario_init_then_find_and_check_witness :
  find_by_email (E:=example_externals) "eva@movemarias.dev"
    ([ana; bia; carla] ++
     [mkUsuario "e0000000-0000-4000-8000-000000000001" "Eva"
        "eva@movemarias.dev" "sal$segredo5" PROFISSIONAL true None 0 None])%list
  = Some (mkUsuario "e0000000-0000-4000-8000-000000000001" "Eva"
            "eva@movemarias.dev" "sal$segredo5" PROFISSIONAL true None 0 None).
Proof.
  exact (proj1 (Usuario_init_then_find_and_check (E:=example_externals)
           "e0000000-0000-4000-8000-000000000001" "sal" "Eva"
           "eva@movemarias.dev" "segredo5" "eva@movemarias.dev" PROFISSIONAL
           [ana; bia; carla] _ 0 example_bcrypt_roundtrip eq_refl eq_refl
           eq_refl)).
Defined.

(** ** Seeding the default accounts *)

Section Seeding.
Context {E : Externals}.
Variables (cfg : SeedSettings).

Let admin_email : string :=
  config_get_str (DEFAULT_ADMIN_EMAIL cfg) "admin@movemarias.dev".
Let admin_password : string :=
  config_get_str (DEFAULT_ADMIN_PASSWORD cfg) "admin123".
Let prof_email : string :=
  config_get_str (DEFAULT_PROF_EMAIL cfg) "profissional@movemarias.dev".
Let prof_password : string :=
  config_get_str (DEFAULT_PROF_PASSWORD cfg) "prof123".

(** The outcomes of a run that returns: each account was found, or built
    and appended. *)
Lemma create_default_users_ok (id_admin salt_admin id_prof salt_prof : string)
    (rows rows1 : list Usuario) :
  create_default_users cfg id_admin salt_admin id_prof salt_prof rows
    = (Ok tt, rows1) ->
  exists rows_a,
    (find_by_email admin_email rows <> None /\ rows_a = rows \/
     exists admin,
       find_by_email admin_email rows = None /\
       Usuario_init id_admin salt_admin "Administrador do Sistema"
         admin_email admin_password ADMIN = Ok admin /\
       rows_a = (rows ++ [admin])%list) /\
    (find_by_email prof_email rows_a <> None /\ rows1 = rows_a \/
     exists prof,
       find_by_email prof_email rows_a = None /\
       Usuario_init id_prof salt_prof "Maria Silva"
         prof_email prof_password PROFISSIONAL = Ok prof /\
       rows1 = (rows_a ++ [prof])%list).
Proof.
  unfold create_default_users. fold admin_email admin_password prof_email
    prof_password. run_m.
  destruct (find_by_email admin_email rows) as [found|] eqn:Hadmin.
  - run_m. intros Hrun. exists rows. split; [by left|].
    destruct (find_by_email prof_email rows) as [found'|] eqn:Hprof.
    + injection Hrun as <-. by left.
    + destruct (Usuario_init id_prof _ _ _ _ _) as [prof|e]; [|discriminate].
      injection Hrun as <-. right. by exists prof.
  - destruct (Usuario_init id_admin _ _ _ _ _) as [admin|e]; [|discriminate].
    run_m. intros Hrun. exists (rows ++ [admin])%list.
    split; [right; by exists admin|].
    destruct (find_by_email prof_email (rows ++ [admin])%list)
      as [found'|] eqn:Hprof.
    + injection Hrun as <-. by left.
    + destruct (Usuario_init id_prof _ _ _ _ _) as [prof|e]; [|discriminate].
      injection Hrun as <-. right. by exists prof.
Qed.

Lemma create_default_users_both_found (id_admin salt_admin id_prof salt_prof : string)
    (rows : list Usuario) :
  find_by_email admin_email rows <> None ->
  find_by_email prof_email rows <> None ->
  create_default_users cfg id_admin salt_admin id_prof salt_prof rows
    = (Ok tt, rows).
Proof.
  intros Ha Hp. unfold create_default_users. fold admin_email prof_email. run_m.
  destruct (find_by_email admin_email rows); [|done]. run_m.
  by destruct (find_by_email prof_email rows).
Qed.

Lemma Usuario_init_found (new_id salt nome_ email_ senha : string)
    (tipo : TipoUsuarioEnum) (u : Usuario) (rows : list Usuario) :
  Usuario_init new_id salt nome_ email_ senha tipo = Ok u ->
  find_by_email email_ (rows ++ [u])%list <> None.
Proof.
  intros Hinit. destruct (Usuario_init_fields _ _ _ _ _ _ _ Hinit) as (h & _ & ->).
  destruct (find_by_email email_ rows) as [v|] eqn:Hrows.
  - by rewrite (find_by_email_app_some _ _ _ _ Hrows).
  - rewrite (find_by_email_app_none _ _ _ Hrows).
    by rewrite find_by_email_new_row.
Qed.

Lemma find_by_email_app_found (e : string) (rows more : list Usuario) :
  find_by_email e rows <> None ->
  find_by_email e (rows ++ more)%list <> None.
Proof.
  destruct (find_by_email e rows) as [u|] eqn:Hrows; [|done].
  intros _. by rewrite (find_by_email_app_some _ _ _ _ Hrows).
Qed.

End Seeding.

(** X7.  Seeding is idempotent: after a run of [create_default_users] that
    returned, another run, with whatever identifiers and salts, finds both
    accounts and leaves the table exactly as it is. *)
Theorem create_default_users_idempotent {E : Externals} (cfg : SeedSettings)
    (id_admin salt_admin id_prof salt_prof : string)
    (id_admin' salt_admin' id_prof' salt_prof' : string)
    (rows rows1 : list Usuario) :
  create_default_users cfg id_admin salt_admin id_prof salt_prof rows
    = (Ok tt, rows1) ->
  create_default_users cfg id_admin' salt_admin' id_prof' salt_prof' rows1
    = (Ok tt, rows1).
Proof.
  intros Hrun.
  destruct (create_default_users_ok cfg _ _ _ _ _ _ Hrun)
    as (rows_a & Hadmin & Hprof).
  assert (find_by_email
            (config_get_str (DEFAULT_ADMIN_EMAIL cfg) "admin@movemarias.dev")
            rows_a <> None) as Ha.
  { destruct Hadmin as [[Hfound ->]|(admin & _ & Hinit & ->)]; [done|].
    by apply (Usuario_init_found _ _ _ _ _ _ _ _ Hinit). }
  apply create_default_users_both_found.
  - destruct Hprof as [[_ ->]|(prof & _ & _ & ->)]; [done|].
    by apply find_by_email_app_found.
  - destruct Hprof as [[Hfound ->]|(prof & _ & Hinit & ->)]; [done|].
    by apply (Usuario_init_found _ _ _ _ _ _ _ _ Hinit).
Qed.

Lemma create_default_users_idempotent_witness :
  let rows1 := snd (create_default_users (E:=example_externals)
                      SeedSettings_empty "id-a" "sal" "id-p" "sal"
                      [ana; bia; carla]) in
  create_default_users (E:=example_externals) SeedSettings_empty
    "id-x" "outro" "id-y" "outro" rows1 = (Ok tt, rows1).
Proof.
  exact (create_default_users_idempotent (E:=example_externals)
           SeedSettings_empty "id-a" "sal" "id-p" "sal"
           "id-x" "outro" "id-y" "outro" [ana; bia; carla] _ eq_refl).
Defined.

(** X8.  Seeding only appends: whatever a run of [create_default_users] does,
    also one that raises on the way, the rows that were in the table are
    still there, unchanged and in the same order, followed by at most two
    new ones. *)
Theorem create_default_users_only_appends {E : Externals} (cfg : SeedSettings)
    (id_admin salt_admin id_prof salt_prof : string) (rows : list Usuario) :
  exists added,
    snd (create_default_users cfg id_admin salt_admin id_prof salt_prof rows)
      = (rows ++ added)%list /\
    (List.length added <= 2)%nat.
Proof.
  unfold create_default_users. run_m.
  destruct (find_by_email _ rows) as [found|].
  - run_m. destruct (find_by_email _ rows) as [found'|].
    + exists []. split; [by rewrite app_nil_r|cbn; lia].
    + destruct (Usuario_init id_prof _ _ _ _ _) as [prof|e]; cbn.
      * exists [prof]. split; [done|cbn; lia].
      * exists []. split; [by rewrite app_nil_r|cbn; lia].
  - destruct (Usuario_init id_admin _ _ _ _ _) as [admin|e]; cbn.
    + destruct (find_by_email _ (rows ++ [admin])%list) as [found'|].
      * exists [admin]. split; [done|cbn; lia].
      * destruct (Usuario_init id_prof _ _ _ _ _) as [prof|e]; cbn.
        -- exists [admin; prof]. split; [by rewrite <- app_assoc|cbn; lia].
        -- exists [admin]. split; [done|cbn; lia].
    + exists []. split; [by rewrite app_nil_r|cbn; lia].
Qed.

(** X9.  After a run of [create_default_users] that returned, on a table that
    had no row with the administrator's address, looking that address up
    gives an active account of type [ADMIN] carrying the identifier drawn
    for it, and the configured administrator password checks against
    it. *)
Theorem create_default_users_admin_can_authenticate {E : Externals}
    (cfg : SeedSettings) (id_admin salt_admin id_prof salt_prof : string)
    (rows rows1 : list Usuario) :
  (forall salt' senha' h,
     generate_password_hash salt' senha' = Ok h ->
     check_password_hash h senha' = true) ->
  create_default_users cfg id_admin salt_admin id_prof salt_prof rows
    = (Ok tt, rows1) ->
  find_by_email (config_get_str (DEFAULT_ADMIN_EMAIL cfg) "admin@movemarias.dev")
    rows = None ->
  exists admin,
    find_by_email
      (config_get_str (DEFAULT_ADMIN_EMAIL cfg) "admin@movemarias.dev") rows1
      = Some admin /\
    id admin = id_admin /\
    tipo_usuario admin = ADMIN /\
    ativo admin = true /\
    fst (check_password
           (config_get_str (DEFAULT_ADMIN_PASSWORD cfg) "admin123") admin)
      = Ok true.
Proof.
  intros Hbcrypt Hrun Hnone.
  destruct (create_default_users_ok cfg _ _ _ _ _ _ Hrun)
    as (rows_a & Hadmin & Hprof).
  destruct Hadmin as [[Hfound _]|(admin & _ & Hinit & ->)]; [done|].
  exists admin.
  destruct (Usuario_init_fields _ _ _ _ _ _ _ Hinit) as (h & Hgen & Hfields).
  assert (find_by_email
            (config_get_str (DEFAULT_ADMIN_EMAIL cfg) "admin@movemarias.dev")
            (rows ++ [admin])%list = Some admin) as Hfind.
  { rewrite (find_by_email_app_none _ _ _ Hnone).
    apply find_by_email_new_row. by rewrite Hfields. }
  split.
  - destruct Hprof as [[_ ->]|(prof & _ & _ & ->)]; [done|].
    by apply find_by_email_app_some.
  - rewrite Hfields. repeat split.
    unfold check_password. run_m. cbn. by rewrite (Hbcrypt _ _ _ Hgen).
Qed.

Lemma create_default_users_admin_can_authenticate_witness :
  exists admin,
    find_by_email (E:=example_externals) "admin@movemarias.dev"
      (snd (create_default_users (E:=example_externals) SeedSettings_empty
              "id-a" "sal" "id-p" "sal" [ana; bia; carla])) = Some admin /\
    id admin = "id-a" /\
    tipo_usuario admin = ADMIN /\
    ativo admin = true /\
    fst (check_password (E:=example_externals) "admin123" admin) = Ok true.
Proof.
  exact (create_default_users_admin_can_authenticate (E:=example_externals)
           SeedSettings_empty "id-a" "sal" "id-p" "sal" [ana; bia; carla] _
           example_bcrypt_roundtrip eq_refl eq_refl).
Defined.

(** * Further properties of the configuration and the routes *)

(** ** Configuration selection *)

(** X10.  [get_config] never fails: a missing or empty [FLASK_ENV], and every
    name other than the four it knows, selects [DevelopmentConfig]. *)
Theorem get_config_falls_back_to_development (FLASK_ENV : option string) :
  (forall name, FLASK_ENV = Some name ->
     name = "" \/
     (name <> "testing" /\ name <> "staging" /\ name <> "production")) ->
  get_config FLASK_ENV = DevelopmentConfig.
Proof.
  intros Hname. unfold get_config. destruct FLASK_ENV as [name|]; [|reflexivity].
  destruct (String.eqb name "") eqn:Hempty; [reflexivity|].
  destruct (Hname name eq_refl) as [->|(Ht & Hs & Hp)]; [discriminate|].
  unfold config_by_name. cbn [config_lookup].
  destruct (String.eqb "development" name); [reflexivity|].
  destruct (String.eqb_spec "testing" name) as [<-|_]; [done|].
  destruct (String.eqb_spec "staging" name) as [<-|_]; [done|].
  destruct (String.eqb_spec "production" name) as [<-|_]; [done|].
  reflexivity.
Qed.

Lemma get_config_falls_back_to_development_witness :
  get_config (Some "homologacao") = DevelopmentConfig.
Proof.
  apply get_config_falls_back_to_development.
  intros name [= <-]. right. repeat split; discriminate.
Defined.

Lemma get_config_settings_are_timedeltas (FLASK_ENV : option string) :
  exists d_access d_refresh,
    JWT_ACCESS_TOKEN_EXPIRES (get_config FLASK_ENV) = Some (STimedelta d_access) /\
    JWT_REFRESH_TOKEN_EXPIRES (get_config FLASK_ENV) = Some (STimedelta d_refresh).
Proof.
  unfold get_config.
  destruct FLASK_ENV as [name|]; [|eexists _, _; split; reflexivity].
  destruct (String.eqb name ""); [eexists _, _; split; reflexivity|].
  unfold config_by_name. cbn [config_lookup].
  repeat case_match; simplify_eq; eexists _, _; split; reflexivity.
Qed.

(** X11.  Whatever [FLASK_ENV] is, the configuration [get_config] selects keeps
    [timedelta] objects under the JWT keys, so a login with the correct
    secret of an active account raises [TypeError] and changes nothing:
    under no environment of config.py does [login] return tokens. *)
Theorem login_raises_under_every_environment
    {E : Externals} {U : UndefinedMethods} (FLASK_ENV : option string)
    (now : datetime) (jti_access jti_refresh email_ senha : string)
    (s : AppState) (usuario : Usuario) :
  find_by_email email_ (usuarios s) = Some usuario ->
  ativo usuario = true ->
  check_password_hash (senha_hash usuario) senha = true ->
  auth.login (get_config FLASK_ENV) now jti_access jti_refresh
    (Some (email_, senha)) s
  = (Raise TypeError, s).
Proof.
  intros Hfind Hativo Hcheck.
  destruct (get_config_settings_are_timedeltas FLASK_ENV) as (d & _ & Hd & _).
  by apply (login_timedelta_setting_raises _ now jti_access jti_refresh email_
              senha s usuario d).
Qed.

Lemma login_raises_under_every_environment_witness :
  auth.login (E:=example_externals) (U:=stamping_methods)
    (get_config (Some "production")) 1000 "a" "r"
    (Some ("ana@movemarias.dev", "segredo1")) example_state
  = (Raise TypeError, example_state).
Proof.
  exact (login_raises_under_every_environment (E:=example_externals)
           (U:=stamping_methods) (Some "production") 1000 "a" "r"
           "ana@movemarias.dev" "segredo1" example_state ana
           eq_refl eq_refl eq_refl).
Defined.

(** X12.  Under the configuration [get_config] selects for any
    [FLASK_ENV], a refresh token in its validity period, not revoked, of an
    active account, makes [refresh] raise [TypeError] instead of returning
    a new access token, and changes nothing. *)
Theorem refresh_raises_under_every_environment (FLASK_ENV : option string)
    (now : datetime) (new_jti : string) (t : Jwt) (usuario : Usuario)
    (s : AppState) :
  typ t = Refresh ->
  iat t <= now < exp t ->
  (jti t ∉ revoked_tokens s) ->
  find_by_id (sub t) (usuarios s) = Some usuario ->
  ativo usuario = true ->
  auth.refresh (get_config FLASK_ENV) now new_jti (Bearer t) s
  = (Raise TypeError, s).
Proof.
  intros Htyp Htime Hfresh Hfind Hativo.
  destruct (get_config_settings_are_timedeltas FLASK_ENV) as (d & _ & Hd & _).
  unfold auth.refresh. run_m.
  rewrite (verify_refresh_token_in_time now (usuarios s) t usuario Htyp Htime Hfind).
  run_m. rewrite (bool_decide_eq_false_2 _ Hfresh), Hfind, Hativo, Hd.
  reflexivity.
Qed.

Lemma refresh_raises_under_every_environment_witness :
  auth.refresh (get_config None) 2000 "novo" (Bearer ana_refresh) example_state
  = (Raise TypeError, example_state).
Proof.
  exact (refresh_raises_under_every_environment None 2000 "novo" ana_refresh
           ana example_state eq_refl
           ltac:(unfold ana_refresh, create_refresh_token, days; cbn; lia)
           ltac:(apply not_elem_of_empty) eq_refl eq_refl).
Defined.

(** ** Token kinds and the protected views *)

Lemma verify_jwt_in_request_inr (refresh_ : bool) (now : datetime)
    (rows : list Usuario) (a : Authorization) (t : Jwt) :
  verify_jwt_in_request refresh_ now rows a = inr t ->
  a = Bearer t /\
  iat t <= now < exp t /\
  is_refresh (typ t) = refresh_ /\
  exists usuario, find_by_id (sub t) rows = Some usuario.
Proof.
  unfold verify_jwt_in_request, user_lookup_callback.
  destruct a as [| |t']; try discriminate.
  destruct (now <? iat t') eqn:Hiat; [discriminate|].
  destruct (exp t' <=? now) eqn:Hexp; [discriminate|].
  destruct (Bool.eqb (is_refresh (typ t')) refresh_) eqn:Hkind; [|discriminate].
  destruct (find_by_id (sub t') rows) as [usuario|] eqn:Hfind; [|discriminate].
  intros [= <-]. apply Z.ltb_ge in Hiat. apply Z.leb_gt in Hexp.
  apply Bool.eqb_prop in Hkind. repeat split; try done. by exists usuario.
Qed.


(** X13.  [refresh] answers 200 only to a refresh token within its validity
    period whose [jti] is not in the registry and whose subject is an
    active account; the new access token is issued at [now] for that
    subject, with the configured number of hours to live, and the state is
    left as it was: the refresh token is neither consumed nor revoked, and
    no event is logged. *)
Theorem refresh_200_only_for_valid_refresh_token (cfg : Config) (now : datetime)
    (new_jti : string) (a : Authorization) (s s' : AppState) (resp : Response) :
  auth.refresh cfg now new_jti a s = (Ok resp, s') ->
  status resp = 200 ->
  exists t usuario n,
    a = Bearer t /\
    typ t = Refresh /\
    iat t <= now < exp t /\
    (jti t ∉ revoked_tokens s) /\
    find_by_id (sub t) (usuarios s) = Some usuario /\
    ativo usuario = true /\
    config_get (JWT_ACCESS_TOKEN_EXPIRES cfg) 24 = SInt n /\
    resp = mkResponse
             (WithData true "Token renovado com sucesso"
                (RefreshData (mkJwt new_jti Access (sub t) now (now + hours n))))
             200 /\
    s' = s.
Proof.
  unfold auth.refresh. run_m. intros Hrun Hstatus.
  destruct (verify_jwt_in_request true now (usuarios s) a) as [e|t] eqn:Hv.
  { injection Hrun as <- <-. destruct e; discriminate. }
  destruct (verify_jwt_in_request_inr _ _ _ _ _ Hv) as (-> & Htime & Hkind & _).
  run_m. destruct (bool_decide (jti t ∈ revoked_tokens s)) eqn:Hrev.
  { injection Hrun as <- <-. discriminate. }
  apply bool_decide_eq_false_1 in Hrev.
  destruct (find_by_id (sub t) (usuarios s)) as [usuario|] eqn:Hfind.
  2: { injection Hrun as <- <-. discriminate. }
  destruct (ativo usuario) eqn:Hativo; cbn in Hrun.
  2: { injection Hrun as <- <-. discriminate. }
  destruct (config_get (JWT_ACCESS_TOKEN_EXPIRES cfg) 24) as [n|d] eqn:Hcfg;
    cbn in Hrun; [|discriminate].
  injection Hrun as <- <-. exists t, usuario, n.
  repeat split; try done; try lia. by destruct (typ t).
Qed.

Lemma refresh_200_only_for_valid_refresh_token_witness :
  exists t usuario n,
    Bearer ana_refresh = Bearer t /\
    typ t = Refresh /\
    iat t <= 2000 < exp t /\
    (jti t ∉ revoked_tokens example_state) /\
    find_by_id (sub t) (usuarios example_state) = Some usuario /\
    ativo usuario = true /\
    config_get (JWT_ACCESS_TOKEN_EXPIRES Config_empty) 24 = SInt n /\
    mkResponse
      (WithData true "Token renovado com sucesso"
         (RefreshData (mkJwt "novo" Access (id ana) 2000 (2000 + hours 24))))
      200
    = mkResponse
        (WithData true "Token renovado com sucesso"
           (RefreshData (mkJwt "novo" Access (sub t) 2000 (2000 + hours n))))
        200 /\
    example_state = example_state.
Proof.
  exact (refresh_200_only_for_valid_refresh_token Config_empty 2000 "novo"
           (Bearer ana_refresh) example_state example_state _ eq_refl eq_refl).
Defined.



(** X15.  Deactivating an account stops [refresh] but not the access tokens
    already issued: for an account with [ativo] false, a refresh token
    that is otherwise in order is answered 401, while an access token in
    its validity period still gets 200 from [verify_token] and
    [get_current_user], and neither view changes the state. *)
Theorem deactivated_account_keeps_access (cfg : Config) (now : datetime) (new_jti : string) (t_access t_refresh : Jwt)
    (usuario : Usuario) (s : AppState) :
  ativo usuario = false ->
  typ t_access = Access ->
  iat t_access <= now < exp t_access ->
  find_by_id (sub t_access) (usuarios s) = Some usuario ->
  typ t_refresh = Refresh ->
  iat t_refresh <= now < exp t_refresh ->
  find_by_id (sub t_refresh) (usuarios s) = Some usuario ->
  (jti t_refresh ∉ revoked_tokens s) ->
  auth.refresh cfg now new_jti (Bearer t_refresh) s
    = (Ok (mkResponse (Message false "Usuário não encontrado ou inativo") 401), s) /\
  auth.verify_token now (Bearer t_access) s
    = (Ok (mkResponse (WithData true "Token válido"
                         (VerifyData (sub t_access) true)) 200), s) /\
  auth.get_current_user now (Bearer t_access) s
    = (Ok (mkResponse (WithData true "Dados do usuário obtidos com sucesso"
                         (UserData (usuario_schema_dump usuario))) 200), s).
Proof.
  intros Hativo Hta Htime_a Hfind_a Htr Htime_r Hfind_r Hfresh.
  pose proof (verify_access_token_in_time now (usuarios s) t_access usuario
                Hta Htime_a Hfind_a) as Hva.
  pose proof (verify_refresh_token_in_time now (usuarios s) t_refresh usuario
                Htr Htime_r Hfind_r) as Hvr.
  repeat split.
  - unfold auth.refresh. run_m. rewrite Hvr. run_m.
    by rewrite (bool_decide_eq_false_2 _ Hfresh), Hfind_r, Hativo.
  - unfold auth.verify_token. run_m. by rewrite Hva.
  - unfold auth.get_current_user. run_m. rewrite Hva. run_m. by rewrite Hfind_a.
Qed.

Lemma deactivated_account_keeps_access_witness :
  auth.refresh Config_empty 2000 "novo" (Bearer dora_refresh) dora_state
    = (Ok (mkResponse (Message false "Usuário não encontrado ou inativo") 401),
       dora_state) /\
  auth.verify_token 2000 (Bearer dora_access) dora_state
    = (Ok (mkResponse (WithData true "Token válido"
                         (VerifyData (id dora) true)) 200), dora_state).
Proof.
  destruct (deactivated_account_keeps_access Config_empty 2000 "novo" dora_access
              dora_refresh dora dora_state eq_refl eq_refl
              ltac:(unfold dora_access, create_access_token, hours; cbn; lia)
              eq_refl eq_refl
              ltac:(unfold dora_refresh, create_refresh_token, days; cbn; lia)
              eq_refl ltac:(apply not_elem_of_empty))
    as (Hr & Hv & _).
  split; [exact Hr|exact Hv].
Defined.

(** ** Changing the password *)

Lemma truthy_long (v : string) :
  (6 <= py_len v)%nat -> truthy (Some v) = true.
Proof. destruct v; cbn; [lia|done]. Qed.

(** X16.  A request [change_password] does not accept is answered 400 and
    changes nothing: no body or an empty one, a missing or empty field, a
    confirmation that differs from the new password, or a new password of
    fewer than 6 characters ([len], which counts characters, not the bytes
    of their encoding). *)
Theorem change_password_rejects_malformed_request
    {E : Externals} {U : UndefinedMethods} (now : datetime) (salt : string)
    (data : option dict) (t : Jwt) (s : AppState) :
  verify_jwt_in_request false now (usuarios s) (Bearer t) = inr t ->
  (data = None \/
   exists d, data = Some d /\
     (truthy (dict_get "senha_atual" d) = false \/
      truthy (dict_get "nova_senha" d) = false \/
      truthy (dict_get "confirmar_senha" d) = false \/
      dict_get "nova_senha" d <> dict_get "confirmar_senha" d \/
      (py_len (from_option_str (dict_get "nova_senha" d)) < 6)%nat)) ->
  exists message,
    auth.change_password now salt data (Bearer t) s
    = (Ok (mkResponse (Message false message) 400), s).
Proof.
  intros Hv Hbad. unfold auth.change_password. run_m. rewrite Hv.
  destruct Hbad as [->|(d & -> & Hbad)]; [by eexists|].
  destruct d as [|p d']; [by eexists|].
  set (d := p :: d') in *.
  destruct (truthy (dict_get "senha_atual" d)) eqn:H1;
    [|by eexists].
  destruct (truthy (dict_get "nova_senha" d)) eqn:H2;
    [|by eexists].
  destruct (truthy (dict_get "confirmar_senha" d)) eqn:H3;
    [|by eexists].
  cbn [andb negb].
  destruct (String.eqb (from_option_str (dict_get "nova_senha" d))
              (from_option_str (dict_get "confirmar_senha" d))) eqn:Heq;
    [|by eexists].
  cbn [negb].
  destruct (Nat.ltb (py_len (from_option_str (dict_get "nova_senha" d))) 6)
    eqn:Hlen; [by eexists|].
  exfalso. apply Nat.ltb_ge in Hlen. apply String.eqb_eq in Heq.
  destruct Hbad as [?|[?|[?|[Hne|?]]]]; try discriminate; [|lia].
  apply Hne.
  destruct (dict_get "nova_senha" d), (dict_get "confirmar_senha" d);
    cbn in *; congruence.
Qed.

(** A new password of five characters that takes seven bytes. *)
Lemma change_password_rejects_malformed_request_witness :
  exists message,
    auth.change_password (E:=example_externals) (U:=absent_methods) 2000 "sal"
      (Some [("senha_atual", "segredo1"); ("nova_senha", "ação1");
             ("confirmar_senha", "ação1")])
      (Bearer ana_access) example_state
    = (Ok (mkResponse (Message false message) 400), example_state).
Proof.
  apply (change_password_rejects_malformed_request (E:=example_externals)
           (U:=absent_methods) 2000 "sal" _ ana_access example_state eq_refl).
  right. eexists. split; [reflexivity|].
  right. right. right. right. vm_compute. lia.
Defined.

(** X17.  A well-formed request (all three fields present and not empty,
    the confirmation equal to the new password, the new password of at
    least 6 characters) whose current password does not check is answered
    400 "Senha atual incorreta": the stored hash, the registry and the log
    stay as they were. *)
Theorem change_password_wrong_current_password
    {E : Externals} {U : UndefinedMethods} (now : datetime) (salt : string)
    (d : dict) (senha_atual nova_senha : string) (t : Jwt) (usuario : Usuario)
    (s : AppState) :
  verify_jwt_in_request false now (usuarios s) (Bearer t) = inr t ->
  dict_get "senha_atual" d = Some senha_atual ->
  senha_atual <> "" ->
  dict_get "nova_senha" d = Some nova_senha ->
  dict_get "confirmar_senha" d = Some nova_senha ->
  (6 <= py_len nova_senha)%nat ->
  find_by_id (sub t) (usuarios s) = Some usuario ->
  check_password_hash (senha_hash usuario) senha_atual = false ->
  auth.change_password now salt (Some d) (Bearer t) s
  = (Ok (mkResponse (Message false "Senha atual incorreta") 400), s).
Proof.
  intros Hv Ha Hne Hn Hc Hlen Hfind Hcheck.
  unfold auth.change_password, check_password. run_m. rewrite Hv.
  destruct d as [|p d']; [discriminate|]. set (d := p :: d') in *.
  rewrite Ha, Hn, Hc. cbn [truthy from_option_str].
  apply String.eqb_neq in Hne. rewrite Hne.
  pose proof (truthy_long nova_senha Hlen) as Ht. cbn [truthy] in Ht. rewrite Ht.
  rewrite String.eqb_refl. cbn [negb andb].
  replace (Nat.ltb (py_len nova_senha) 6) with false
    by (symmetry; apply Nat.ltb_ge; lia).
  rewrite Hfind. cbn. by rewrite Hcheck.
Qed.

Lemma change_password_wrong_current_password_witness :
  auth.change_password (E:=example_externals) (U:=absent_methods) 2000 "sal"
    (Some [("senha_atual", "errada"); ("nova_senha", "segredo-novo");
           ("confirmar_senha", "segredo-novo")])
    (Bearer ana_access) example_state
  = (Ok (mkResponse (Message false "Senha atual incorreta") 400), example_state).
Proof.
  exact (change_password_wrong_current_password (E:=example_externals)
           (U:=absent_methods) 2000 "sal"
           [("senha_atual", "errada"); ("nova_senha", "segredo-novo");
            ("confirmar_senha", "segredo-novo")] "errada" "segredo-novo"
           ana_access ana example_state eq_refl eq_refl ltac:(discriminate)
           eq_refl eq_refl ltac:(cbn; lia) eq_refl eq_refl).
Defined.



(** ** What [login] records and what it depends on *)

(** X21.  Every login attempt that passed validation and was answered is
    recorded once: the log grows by exactly one event, stamped [now] and carrying the
    address as typed, of type [login_failed] for a 401 and [login_success]
    for a 200.  An attempt that failed validation, and one that ends in an
    exception, record nothing and change nothing. *)
Theorem login_records_one_event {E : Externals} {U : UndefinedMethods}
    (cfg : Config) (now : datetime) (jti_access jti_refresh : string)
    (request_json : option (string * string)) (s : AppState) :
  match auth.login cfg now jti_access jti_refresh request_json s with
  | (Ok resp, s') =>
      match request_json with
      | None => resp = handle_validation_error /\ s' = s
      | Some (email_, _) =>
          exists ev,
            security_log s' = (security_log s ++ [ev])%list /\
            timestamp ev = now /\
            dict_get "email" (details ev) = Some email_ /\
            (status resp = 401 /\ event_type ev = "login_failed" \/
             status resp = 200 /\ event_type ev = "login_success")
      end
  | (Raise _, s') => s' = s
  end.
Proof.
  unfold auth.login, check_password.
  destruct request_json as [[email_ senha]|]; [|done]. run_m.
  destruct (find_by_email email_ (usuarios s)) as [usuario|];
    [|eexists; repeat split; by left].
  destruct (ativo usuario); cbn; [|eexists; repeat split; by left].
  destruct (check_password_hash (senha_hash usuario) senha); cbn;
    [|eexists; repeat split; by left].
  destruct (timedelta_hours _); cbn; [|done].
  destruct (timedelta_days _); cbn; [|done].
  destruct (update_last_login now usuario) as [[[]|] usuario']; cbn; [|done].
  eexists. repeat split. by right.
Qed.

(** X22.  A failed login does not depend on which wrong secret was typed: two
    attempts on the same account with secrets that do not check end in the
    same response and the same state, log included, so nothing derived from
    the secret is answered or recorded. *)
Theorem login_wrong_secrets_are_indistinguishable
    {E : Externals} {U : UndefinedMethods} (cfg : Config) (now : datetime)
    (jti_access jti_refresh email_ senha1 senha2 : string) (s : AppState)
    (usuario : Usuario) :
  find_by_email email_ (usuarios s) = Some usuario ->
  check_password_hash (senha_hash usuario) senha1 = false ->
  check_password_hash (senha_hash usuario) senha2 = false ->
  auth.login cfg now jti_access jti_refresh (Some (email_, senha1)) s
  = auth.login cfg now jti_access jti_refresh (Some (email_, senha2)) s.
Proof.
  intros Hfind H1 H2. destruct (ativo usuario) eqn:Hativo.
  - by rewrite !(login_wrong_password cfg now jti_access jti_refresh email_ _ s
                   usuario).
  - by rewrite !(login_user_inactive cfg now jti_access jti_refresh email_ _ s
                   usuario).
Qed.

Lemma login_wrong_secrets_are_indistinguishable_witness :
  auth.login (E:=example_externals) (U:=stamping_methods) Config_empty 10 "a" "r"
    (Some ("ana@movemarias.dev", "errada")) example_state
  = auth.login (E:=example_externals) (U:=stamping_methods) Config_empty 10 "a" "r"
      (Some ("ana@movemarias.dev", "outra")) example_state.
Proof.
  exact (login_wrong_secrets_are_indistinguishable (E:=example_externals)
           (U:=stamping_methods) Config_empty 10 "a" "r" "ana@movemarias.dev"
           "errada" "outra" example_state ana eq_refl eq_refl eq_refl).
Defined.



(** X24.  With [update_last_login] as the source has it, undefined, no login is
    ever answered 200 and no login changes an account row: valid
    credentials end in an exception, everything else in a 400 or a 401. *)
Theorem login_never_succeeds_without_update_last_login {E : Externals}
    (cfg : Config) (now : datetime) (jti_access jti_refresh : string)
    (request_json : option (string * string)) (s : AppState) :
  let out := auth.login (U:=absent_methods) cfg now jti_access jti_refresh
               request_json s in
  usuarios (snd out) = usuarios s /\
  match fst out with
  | Ok resp => status resp = 400 \/ status resp = 401
  | Raise e => e = TypeError \/ e = AttributeError
  end.
Proof.
  cbv zeta. unfold auth.login, check_password.
  destruct request_json as [[email_ senha]|]; [|split; [done|by left]]. run_m.
  destruct (find_by_email email_ (usuarios s)) as [usuario|];
    [|split; [done|by right]].
  destruct (ativo usuario); cbn; [|split; [done|by right]].
  destruct (check_password_hash (senha_hash usuario) senha); cbn;
    [|split; [done|by right]].
  destruct (config_get (JWT_ACCESS_TOKEN_EXPIRES cfg) 24); cbn;
    [|split; [done|by left]].
  destruct (config_get (JWT_REFRESH_TOKEN_EXPIRES cfg) 30); cbn;
    [|split; [done|by left]].
  split; [done|by right].
Qed.

(** ** The hook and the blueprint's own routes *)

(** For every route of the [auth] blueprint the hook returns nothing,
    whatever is on the registry: the answer of [full_dispatch_request] is
    the answer of the view alone. *)
Theorem hook_is_transparent_on_auth_routes {E : Externals} {U : UndefinedMethods}
    (cfg : Config) (now : datetime) (a : Authorization) (s : AppState) :
  (forall request_json jti_access jti_refresh,
     full_dispatch_request cfg now
       (mkRequest (POST_login request_json jti_access jti_refresh) a) s
     = auth.login cfg now jti_access jti_refresh request_json s) /\
  (forall new_jti,
     full_dispatch_request cfg now (mkRequest (POST_refresh new_jti) a) s
     = auth.refresh cfg now new_jti a s) /\
  full_dispatch_request cfg now (mkRequest POST_logout a) s
    = auth.logout now a s /\
  full_dispatch_request cfg now (mkRequest GET_me a) s
    = auth.get_current_user now a s /\
  (forall salt data,
     full_dispatch_request cfg now
       (mkRequest (POST_change_password salt data) a) s
     = auth.change_password now salt data a s) /\
  full_dispatch_request cfg now (mkRequest GET_verify_token a) s
    = auth.verify_token now a s.
Proof.
  repeat split; intros; reflexivity.
Qed.

(** ** Who gets tokens *)

Lemma find_by_email_in {E : Externals} (e : string) (rows : list Usuario)
    (u : Usuario) :
  find_by_email e rows = Some u -> In u rows.
Proof. unfold find_by_email. intros H. by apply find_some in H as [? _]. Qed.

(** X25.  [login] answers 200 only when the request names, by its normalised
    address, an account that [get_active_users] lists and the secret checks
    against that account's hash; both tokens are then issued at [now] for
    that account's [id], with the [jti]s drawn for them. *)
Theorem login_200_only_for_valid_credentials
    {E : Externals} {U : UndefinedMethods} (cfg : Config) (now : datetime)
    (jti_access jti_refresh : string) (request_json : option (string * string))
    (s s' : AppState) (resp : Response) :
  auth.login cfg now jti_access jti_refresh request_json s = (Ok resp, s') ->
  status resp = 200 ->
  exists email_ senha usuario a r shown,
    request_json = Some (email_, senha) /\
    find_by_email email_ (usuarios s) = Some usuario /\
    In usuario (get_active_users (usuarios s)) /\
    check_password_hash (senha_hash usuario) senha = true /\
    body resp = WithData true "Login realizado com sucesso" (LoginData a r shown) /\
    sub a = id usuario /\ sub r = id usuario /\
    typ a = Access /\ typ r = Refresh /\
    iat a = now /\ iat r = now /\
    jti a = jti_access /\ jti r = jti_refresh.
Proof.
  unfold auth.login, check_password. run_m. intros Hrun Hstatus.
  destruct request_json as [[email_ senha]|].
  2: { injection Hrun as <- <-. discriminate. }
  destruct (find_by_email email_ (usuarios s)) as [usuario|] eqn:Hfind.
  2: { injection Hrun as <- <-. discriminate. }
  destruct (ativo usuario) eqn:Hativo; cbn in Hrun.
  2: { injection Hrun as <- <-. discriminate. }
  destruct (check_password_hash (senha_hash usuario) senha) eqn:Hcheck;
    cbn in Hrun.
  2: { injection Hrun as <- <-. discriminate. }
  destruct (timedelta_hours _) as [d_access|]; cbn in Hrun; [|discriminate].
  destruct (timedelta_days _) as [d_refresh|]; cbn in Hrun; [|discriminate].
  destruct (update_last_login now usuario) as [[[]|] usuario']; [|discriminate].
  injection Hrun as <- <-.
  exists email_, senha, usuario. eexists _, _, _.
  repeat split; try done.
  unfold get_active_users. apply filter_In. split; [|done].
  by apply (find_by_email_in email_ (usuarios s)).
Qed.

Lemma login_200_only_for_valid_credentials_witness :
  exists email_ senha usuario,
    Some ("ana@movemarias.dev", "segredo1") = Some (email_, senha) /\
    In usuario (get_active_users (usuarios example_state)) /\
    check_password_hash (Externals:=example_externals) (senha_hash usuario) senha
    = true.
Proof.
  destruct (login_200_only_for_valid_credentials (E:=example_externals)
              (U:=stamping_methods) Config_empty 1000 "jti-access-1"
              "jti-refresh-1" (Some ("ana@movemarias.dev", "segredo1"))
              example_state _ _ eq_refl eq_refl)
    as (email_ & senha & usuario & a & r & shown & Hreq & _ & Hin & Hcheck & _).
  by exists email_, senha, usuario.
Defined.
